(** * The chat route of the flight-booking assistant

    A shallow embedding of the [POST] and [DELETE] handlers of
    [app/(chat)/api/chat/route.ts] and of the tools they register with the
    hosted model.  The sources hold three editions of the route:

    - [Validated]: route.ts, first document (lines 1-264); the boarding pass
      is projected from the stored details after a Zod [safeParse];
    - [Direct]: route.ts, second document (lines 264-636); the boarding pass
      is projected from the stored details as they are;
    - [Reverted]: the unnamed source file; the boarding pass echoes the
      parameters supplied by the model.

    Handlers are asynchronous JavaScript; they are embedded in a state and
    exception monad over a [World] that holds the two tables, the ambient
    session and the trace of collaborator calls.  [console.log] and friends
    are not modelled. *)

From Stdlib Require Import ZArith String List Bool DecimalString.
From stdpp Require Import base option list gmap strings.

Set Warnings "-register-all".

Local Open Scope string_scope.
Local Open Scope Z_scope.

(** ** JavaScript values *)

Module Js.

(** JSON values as the route handles them, plus [undefined], which shows up
    when a missing property is read.  Numbers are kept abstract as
    integers: no handler computes with them. *)
Inductive Value : Type :=
| VUndef
| VNull
| VBool (b : bool)
| VNum (n : Z)
| VStr (s : string)
| VArr (items : list Value)
| VObj (fields : list (string * Value)).

(** What a [throw] carries: an [Error] with its message, or anything else. *)
Inductive Thrown : Type :=
| JsError (message : string)
| NonError.

Inductive Outcome (A : Type) : Type :=
| Returned (a : A)
| Threw (e : Thrown).
Arguments Returned {A} a.
Arguments Threw {A} e.

(** Own-property lookup in an object literal. *)
Fixpoint obj_lookup (k : string) (fields : list (string * Value)) : option Value :=
  match fields with
  | [] => None
  | (k', v) :: rest => if String.eqb k k' then Some v else obj_lookup k rest
  end.

(** Assignment of one key while an object literal is built: an existing key
    keeps its position and takes the new value, a new key goes last. *)
Fixpoint obj_set (k : string) (v : Value) (fields : list (string * Value))
  : list (string * Value) :=
  match fields with
  | [] => [(k, v)]
  | (k', v') :: rest =>
      if String.eqb k k' then (k, v) :: rest else (k', v') :: obj_set k v rest
  end.

(** [{ ...target, ...src }] *)
Definition obj_spread (src target : list (string * Value)) : list (string * Value) :=
  fold_left (fun acc kv => obj_set (fst kv) (snd kv) acc) src target.

Definition has_key (k : string) (v : Value) : bool :=
  match v with
  | VObj fields => bool_decide (is_Some (obj_lookup k fields))
  | _ => false
  end.

(** [v.k] for a key [k] that is no built-in property of strings or arrays
    (the route reads passengerName, flightNumber, seats, departure and
    arrival only): a [TypeError] on [undefined] and [null], the own
    property of an object, [undefined] everywhere else. *)
Definition prop (v : Value) (k : string) : Outcome Value :=
  match v with
  | VUndef | VNull => Threw (JsError "Cannot read properties of undefined")
  | VObj fields =>
      Returned (match obj_lookup k fields with Some x => x | None => VUndef end)
  | _ => Returned VUndef
  end.

Definition string_of_Z (n : Z) : string := NilZero.string_of_int (Z.to_int n).

Fixpoint join_strings (sep : string) (l : list string) : string :=
  match l with
  | [] => ""
  | [s] => s
  | s :: rest => s ++ sep ++ join_strings sep rest
  end.

(** [String(v)] as [Array.prototype.join] applies it to an element:
    [undefined] and [null] give the empty string, a nested array is joined
    with a comma.  A number prints as the integer that stands for it, in
    full decimal. *)
Fixpoint join_element (v : Value) : string :=
  match v with
  | VUndef | VNull => ""
  | VBool true => "true"
  | VBool false => "false"
  | VNum n => string_of_Z n
  | VStr s => s
  | VArr items => join_strings "," (map join_element items)
  | VObj _ => "[object Object]"
  end.

(** [v.join(sep)]: only arrays have the method among JSON values. *)
Definition join (v : Value) (sep : string) : Outcome Value :=
  match v with
  | VArr items => Returned (VStr (join_strings sep (map join_element items)))
  | VUndef | VNull => Threw (JsError "Cannot read properties of undefined")
  | _ => Threw (JsError "join is not a function")
  end.

(** [hay.includes(needle)] *)
Definition includes (hay needle : string) : bool :=
  bool_decide (is_Some (String.index 0 needle hay)).

(** The payload every tool returns on failure: [{ error: msg }]. *)
Definition error_payload (msg : string) : Value := VObj [("error", VStr msg)].

Definition is_error_payload (v : Value) : bool :=
  match v with
  | VObj [(k, VStr _)] => String.eqb k "error"
  | _ => false
  end.

End Js.
Export Js.

(** ** The fragment of Zod the route uses *)

Module Zod.

Inductive Schema : Type :=
| string_
| number_
| array_ (item : Schema)
| object_ (shape : list (string * Schema)).

(** [schema.safeParse(v)]: [Some data] on success, [None] on failure.  An
    object schema reads each key of its shape (a missing key reads as
    [undefined], which no schema here accepts) and keeps only those keys,
    in the order of the shape. *)
Fixpoint safeParse (schema : Schema) (v : Value) {struct schema} : option Value :=
  match schema with
  | string_ => match v with VStr s => Some (VStr s) | _ => None end
  | number_ => match v with VNum n => Some (VNum n) | _ => None end
  | array_ item =>
      match v with
      | VArr items => VArr <$> mapM (safeParse item) items
      | _ => None
      end
  | object_ shape =>
      match v with
      | VObj fields =>
          VObj <$>
            mapM (fun entry =>
                    pair entry.1
                      <$> safeParse entry.2 (default VUndef (obj_lookup entry.1 fields)))
                 shape
      | _ => None
      end
  end.

End Zod.
Export Zod.

(** ** The world the handlers run in *)

(** A chat message; [content] is a string or an array of parts, and the route
    only asks for its [length]. *)
Inductive Content : Type :=
| Text (s : string)
| Parts (parts : list Value).

Record Message : Type := { role : string; content : Content }.

Definition content_length (c : Content) : nat :=
  match c with
  | Text s => String.length s
  | Parts parts => List.length parts
  end.

Record User : Type := { user_id : option string }.
Record Session : Type := { user : option User }.

Record Chat : Type :=
  { chat_id : string; chat_messages : list Message; chat_userId : string }.

Record Reservation : Type :=
  { reservation_id : string;
    reservation_userId : string;
    details : Value;
    hasCompletedPayment : bool }.

Inductive Query : Type :=
| QgetChatById | QgetReservationById | QsaveChat | QcreateReservation | QdeleteChatById.

(** One entry per call of a collaborator, in the order of the calls. *)
Inductive Event : Type :=
| EvAuth
| EvGetChatById (id : string)
| EvGetReservationById (id : string)
| EvSaveChat (id : string) (messages : list Message) (userId : string)
| EvCreateReservation (id userId : string) (details : Value)
| EvDeleteChatById (id : string)
| EvStreamText (messages : list Message)
| EvOnFinish (responseMessages : list Message).

Definition is_auth (e : Event) : bool :=
  match e with EvAuth => true | _ => false end.

Record World : Type :=
  { chats : gmap string Chat;
    reservations : gmap string Reservation;
    session : option Session;
    trace : list Event }.

Definition record (e : Event) (w : World) : World :=
  {| chats := chats w; reservations := reservations w;
     session := session w; trace := trace w ++ [e] |}.

Definition with_chats (c : gmap string Chat) (w : World) : World :=
  {| chats := c; reservations := reservations w;
     session := session w; trace := trace w |}.

Definition with_reservations (r : gmap string Reservation) (w : World) : World :=
  {| chats := chats w; reservations := r;
     session := session w; trace := trace w |}.

Definition with_session (s : option Session) (w : World) : World :=
  {| chats := chats w; reservations := reservations w;
     session := s; trace := trace w |}.

(** ** State and exception monad *)

Definition M (A : Type) : Type := World -> Outcome A * World.

Definition ret {A} (a : A) : M A := fun w => (Returned a, w).
Definition throw {A} (e : Thrown) : M A := fun w => (Threw e, w).

Definition bind {A B} (m : M A) (k : A -> M B) : M B :=
  fun w =>
    match m w with
    | (Returned a, w') => k a w'
    | (Threw e, w') => (Threw e, w')
    end.

(** [try { m } catch (e) { handler e }]: effects made before the throw stay. *)
Definition try_catch {A} (m : M A) (handler : Thrown -> M A) : M A :=
  fun w =>
    match m w with
    | (Returned a, w') => (Returned a, w')
    | (Threw e, w') => handler e w'
    end.

(** Runs [m] and hands back how it ended; never throws. *)
Definition settle {A} (m : M A) : M (Outcome A) :=
  fun w => let (o, w') := m w in (Returned o, w').

Definition lift {A} (o : Outcome A) : M A := fun w => (o, w).

#[global] Instance M_ret : MRet M := @ret.
#[global] Instance M_bind : MBind M := fun A B k m => bind m k.

(** [session?.user?.id] where the route tests it for truthiness: the id when
    the session has a user with a non-empty id. *)
Definition session_user_id (s : option Session) : option string :=
  match s with
  | Some {| user := Some {| user_id := Some uid |} |} =>
      if String.eqb uid "" then None else Some uid
  | _ => None
  end.

(** ** Tool parameters, as the Zod parameter schemas admit them *)

Record Place : Type :=
  { cityName : string; airportCode : string; timestamp : string;
    gate : string; terminal : string }.

(** The props of createReservation.  The first document of route.ts elides
    the shapes of [departure] and [arrival] in its parameter schema; they
    are given here as the other two editions spell them out. *)
Record ReservationProps : Type :=
  { seats : list string; flightNumber : string;
    departure : Place; arrival : Place; passengerName : string }.

(** The parameters the model sends to displayBoardingPass.  The shapes of
    [departure] and [arrival] are elided in the sources; they are kept as
    arbitrary objects. *)
Record BoardingPassParams : Type :=
  { bp_reservationId : string; bp_passengerName : string;
    bp_flightNumber : string; bp_seat : string;
    bp_departure : list (string * Value); bp_arrival : list (string * Value) }.

Definition place_value (p : Place) : Value :=
  VObj [("cityName", VStr (cityName p)); ("airportCode", VStr (airportCode p));
        ("timestamp", VStr (timestamp p)); ("gate", VStr (gate p));
        ("terminal", VStr (terminal p))].

(** [props] as a JavaScript object, keys in the order of the schema. *)
Definition props_fields (props : ReservationProps) : list (string * Value) :=
  [("seats", VArr (map VStr (seats props)));
   ("flightNumber", VStr (flightNumber props));
   ("departure", place_value (departure props));
   ("arrival", place_value (arrival props));
   ("passengerName", VStr (passengerName props))].

Definition params_fields (p : BoardingPassParams) : list (string * Value) :=
  [("reservationId", VStr (bp_reservationId p));
   ("passengerName", VStr (bp_passengerName p));
   ("flightNumber", VStr (bp_flightNumber p));
   ("seat", VStr (bp_seat p));
   ("departure", VObj (bp_departure p));
   ("arrival", VObj (bp_arrival p))].

Inductive ToolCall : Type :=
| CallGetWeather (latitude longitude : Z)
| CallDisplayFlightStatus (flightNumber date : string)
| CallSearchFlights (origin destination : string)
| CallSelectSeats (flightNumber : string)
| CallCreateReservation (props : ReservationProps)
| CallAuthorizePayment (reservationId : string)
| CallVerifyPayment (reservationId : string)
| CallDisplayBoardingPass (params : BoardingPassParams).

(** What happens while the hosted model streams: it asks for a tool, or the
    caller's session runs out. *)
Inductive StreamStep : Type :=
| Invoke (call : ToolCall)
| SessionExpires.

(** One run of the hosted model: the steps taken while it streams and, when
    the stream runs to completion, the response messages it ends with. *)
Record StreamScript : Type :=
  { steps : list StreamStep; finish : option (list Message) }.

Record FetchResponse : Type :=
  { ok : bool; statusText : string; json : Outcome Value }.

(** ** Collaborators outside the route *)

(** Everything the route imports and does not define: the SDK's message
    conversion, the sample generators and the pricing function of
    [@/ai/actions], the weather service, the hosted model, and whether a
    database query fails. *)
Record Env : Type :=
  { convertToCoreMessages : list Message -> list Message;
    generateReservationPrice : ReservationProps -> Outcome Z;
    generateSampleFlightStatus : string -> string -> Outcome Value;
    generateSampleFlightSearchResults : string -> string -> Outcome Value;
    generateSampleSeatSelection : string -> Outcome Value;
    fetch : Z -> Z -> Outcome FetchResponse;
    hosted_model : list Message -> Outcome StreamScript;
    db_fault : Query -> option Thrown }.

(** Modelled from the spec: [auth] of [@/app/(auth)/auth] is not among the
    sources; its contract is "session or null".  It reads the ambient
    session, which may run out while a request is served. *)
Definition auth : M (option Session) :=
  fun w => (Returned (session w), record EvAuth w).

(** Modelled from the spec: [generateUUID] of [@/lib/utils] is not among the
    sources; the spec has it generate "a fresh unique reservation id", "not
    previously seen in the store".  It is rendered as the choice of an
    identifier outside the keys of the reservation table. *)
Definition generateUUID : M string :=
  fun w => (Returned (fresh (dom (reservations w))), w).

(** Modelled from the spec: the queries of [@/db/queries] are not among the
    sources; their contract is "record or null" for the two lookups and
    "persistence effects" for the three writes.  A chat is created on its
    first save and keeps its owner afterwards; a reservation starts with its
    payment flag down, which only the payment flow outside the route
    raises.  Any query may fail with an exception. *)
Module Db.
Section Queries.
Variable env : Env.

Definition query {A} (q : Query) (e : Event) (run : World -> A * World) : M A :=
  fun w =>
    match db_fault env q with
    | Some err => (Threw err, record e w)
    | None => let (a, w') := run (record e w) in (Returned a, w')
    end.

Definition getChatById (id : string) : M (option Chat) :=
  query QgetChatById (EvGetChatById id) (fun w => (chats w !! id, w)).

Definition getReservationById (id : string) : M (option Reservation) :=
  query QgetReservationById (EvGetReservationById id)
    (fun w => (reservations w !! id, w)).

Definition saveChat (id : string) (messages : list Message) (userId : string) : M unit :=
  query QsaveChat (EvSaveChat id messages userId)
    (fun w =>
       let owner := match chats w !! id with
                    | Some c => chat_userId c
                    | None => userId
                    end in
       (tt, with_chats
              (<[id := {| chat_id := id; chat_messages := messages;
                          chat_userId := owner |}]> (chats w)) w)).

Definition createReservation (id userId : string) (d : Value) : M unit :=
  query QcreateReservation (EvCreateReservation id userId d)
    (fun w =>
       (tt, with_reservations
              (<[id := {| reservation_id := id; reservation_userId := userId;
                          details := d; hasCompletedPayment := false |}]>
                 (reservations w)) w)).

Definition deleteChatById (id : string) : M unit :=
  query QdeleteChatById (EvDeleteChatById id)
    (fun w => (tt, with_chats (delete id (chats w)) w)).

End Queries.
End Db.

(** ** HTTP responses *)

Inductive Body : Type :=
| TextBody (s : string)
| JsonBody (v : Value)
| DataStream.

(** A response by its status and body; headers are left out. *)
Record Response : Type := { status : Z; body : Body }.

(** ** The hosted SDK's [streamText] *)

Section StreamText.
Variable env : Env.
Variable execute : ToolCall -> M Value.

(** The steps of a stream, as the spec has them: tools run one after the
    other as the model asks for them; what a tool returns or throws goes
    back to the model and does not reach the handler. *)
Fixpoint run_steps (l : list StreamStep) : M unit :=
  match l with
  | [] => mret tt
  | SessionExpires :: rest =>
      _ ← (fun w => (Returned tt, with_session None w));
      run_steps rest
  | Invoke call :: rest =>
      _ ← settle (execute call);
      run_steps rest
  end.

(** The model is called with the messages; when the call itself fails the
    exception reaches the caller of [streamText].  Otherwise the steps run
    and, when the stream completes, [onFinish] receives the response
    messages. *)
Definition streamText (messages : list Message)
    (onFinish : list Message -> M unit) : M unit :=
  _ ← (fun w => (Returned tt, record (EvStreamText messages) w));
  script ← lift (hosted_model env messages);
  _ ← run_steps (steps script);
  match finish script with
  | Some responseMessages =>
      _ ← (fun w => (Returned tt, record (EvOnFinish responseMessages) w));
      onFinish responseMessages
  | None => mret tt
  end.

End StreamText.

(** [convertToCoreMessages(messages).filter(m => m.content.length > 0)] *)
Definition core_messages (env : Env) (messages : list Message) : list Message :=
  List.filter (fun m => (0 <? content_length (content m))%nat)
    (convertToCoreMessages env messages).

(** The body of a POST, [{ id, messages }], once [request.json()] has
    delivered it. *)
Record PostBody : Type := { body_id : string; body_messages : list Message }.

Definition json_response (code : Z) (v : Value) : Response :=
  {| status := code; body := JsonBody v |}.

Definition text_response (code : Z) (s : string) : Response :=
  {| status := code; body := TextBody s |}.

(** [!id] for the [id] query parameter of a DELETE: absent or empty. *)
Definition missing (id : option string) : bool :=
  match id with
  | None => true
  | Some i => String.eqb i ""
  end.

(** ** route.ts, second document (lines 264-636) *)

Module Direct.
Section Route.
Variable env : Env.

Definition getWeather_execute (latitude longitude : Z) : M Value :=
  response ← lift (fetch env latitude longitude);
  if negb (ok response) then
    mret (error_payload ("Failed to fetch weather: " ++ statusText response))
  else lift (json response).

Definition displayFlightStatus_execute (flightNumber date : string) : M Value :=
  lift (generateSampleFlightStatus env flightNumber date).

Definition searchFlights_execute (origin destination : string) : M Value :=
  lift (generateSampleFlightSearchResults env origin destination).

Definition selectSeats_execute (flightNumber : string) : M Value :=
  lift (generateSampleSeatSelection env flightNumber).

Definition createReservation_execute (props : ReservationProps) : M Value :=
  totalPriceInUSD ← lift (generateReservationPrice env props);
  session ← auth;
  reservationId ← generateUUID;
  match session_user_id session with
  | Some userId =>
      let details := obj_set "totalPriceInUSD" (VNum totalPriceInUSD) (props_fields props) in
      _ ← Db.createReservation env reservationId userId (VObj details);
      mret (VObj (obj_set "totalPriceInUSD" (VNum totalPriceInUSD)
                    (obj_spread (props_fields props) [("id", VStr reservationId)])))
  | None => mret (error_payload "User session lost. Cannot create reservation.")
  end.

Definition authorizePayment_execute (reservationId : string) : M Value :=
  mret (VObj [("message",
               VStr ("User needs to authorize payment for reservation "
                     ++ reservationId ++ "."));
              ("reservationId", VStr reservationId)]).

Definition verifyPayment_execute (reservationId : string) : M Value :=
  try_catch
    (reservation ← Db.getReservationById env reservationId;
     match reservation with
     | None => mret (error_payload ("Reservation " ++ reservationId ++ " not found."))
     | Some r => mret (VObj [("hasCompletedPayment", VBool (hasCompletedPayment r))])
     end)
    (fun _ => mret (error_payload "Could not verify payment status.")).

(** The object literal [boardingPassData], its properties evaluated in
    order, read from [reservation.details]. *)
Definition boardingPassData (reservation : Reservation) : M Value :=
  passengerName ← lift (prop (details reservation) "passengerName");
  flightNumber ← lift (prop (details reservation) "flightNumber");
  seats ← lift (prop (details reservation) "seats");
  seat ← lift (join seats ", ");
  departure ← lift (prop (details reservation) "departure");
  arrival ← lift (prop (details reservation) "arrival");
  mret (VObj [("reservationId", VStr (reservation_id reservation));
              ("passengerName", passengerName);
              ("flightNumber", flightNumber);
              ("seat", seat);
              ("departure", departure);
              ("arrival", arrival)]).

(** The schema announces the passenger and flight parameters; [execute]
    destructures [reservationId] alone. *)
Definition displayBoardingPass_execute (params : BoardingPassParams) : M Value :=
  let reservationId := bp_reservationId params in
  try_catch
    (reservation ← Db.getReservationById env reservationId;
     match reservation with
     | None => mret (error_payload ("Reservation " ++ reservationId ++ " not found."))
     | Some r =>
         if negb (hasCompletedPayment r) then
           mret (error_payload
                   "Payment not completed for this reservation. Cannot display boarding pass.")
         else boardingPassData r
     end)
    (fun _ => mret (error_payload "Could not retrieve boarding pass details.")).

Definition execute (call : ToolCall) : M Value :=
  match call with
  | CallGetWeather latitude longitude => getWeather_execute latitude longitude
  | CallDisplayFlightStatus flightNumber date => displayFlightStatus_execute flightNumber date
  | CallSearchFlights origin destination => searchFlights_execute origin destination
  | CallSelectSeats flightNumber => selectSeats_execute flightNumber
  | CallCreateReservation props => createReservation_execute props
  | CallAuthorizePayment reservationId => authorizePayment_execute reservationId
  | CallVerifyPayment reservationId => verifyPayment_execute reservationId
  | CallDisplayBoardingPass params => displayBoardingPass_execute params
  end.

(** [session] is the one resolved when the request came in. *)
Definition onFinish (id : string) (coreMessages : list Message) (session : Session)
    (responseMessages : list Message) : M unit :=
  match session_user_id (Some session) with
  | Some userId =>
      try_catch (Db.saveChat env id (coreMessages ++ responseMessages) userId)
        (fun _ => mret tt)
  | None => mret tt
  end.

(** The answer built in the [catch] around [streamText]. *)
Definition stream_failure (error : Thrown) : Response :=
  match error with
  | JsError message =>
      if includes message "permission denied" || includes message "API key"
         || includes message "quota" then
        json_response 403 (error_payload ("AI service error: " ++ message))
      else if includes message "model" && includes message "not found" then
        json_response 400 (error_payload ("AI model error: " ++ message))
      else
        json_response 500 (error_payload ("Internal server error: " ++ message))
  | NonError =>
      json_response 500 (error_payload "An error occurred while processing your request.")
  end.

(** The handler after its first statement, the reading of the body, which
    is in [POST_of_request], for a given tool registry.  The system prompt
    and the telemetry options go to the SDK with the messages; they are part
    of what [hosted_model] stands for. *)
Definition POST_with (tools : ToolCall -> M Value) (request : PostBody) : M Response :=
  session ← auth;
  match session with
  | None => mret (text_response 401 "Unauthorized")
  | Some session =>
      let coreMessages := core_messages env (body_messages request) in
      try_catch
        (_ ← streamText env tools coreMessages
               (onFinish (body_id request) coreMessages session);
         mret {| status := 200; body := DataStream |})
        (fun error => mret (stream_failure error))
  end.

Definition POST : PostBody -> M Response := POST_with execute.

Definition DELETE (id : option string) : M Response :=
  if missing id then
    mret (json_response 400 (error_payload "Chat ID is required"))
  else
    let id := default "" id in
    session ← auth;
    match session_user_id session with
    | None => mret (json_response 401 (error_payload "Unauthorized"))
    | Some userId =>
        try_catch
          (chat ← Db.getChatById env id;
           match chat with
           | None => mret (json_response 404 (error_payload "Chat not found"))
           | Some c =>
               if negb (String.eqb (chat_userId c) userId) then
                 mret (json_response 403 (error_payload "Forbidden"))
               else
                 _ ← Db.deleteChatById env id;
                 mret (json_response 200
                         (VObj [("message", VStr "Chat deleted successfully")]))
           end)
          (fun _ =>
             mret (json_response 500
                     (error_payload "An internal error occurred while deleting the chat.")))
    end.

End Route.
End Direct.

(** ** route.ts, first document (lines 1-264) *)

Module Validated.
Section Route.
Variable env : Env.

Definition place_schema : Schema :=
  object_ [("cityName", string_); ("airportCode", string_);
           ("timestamp", string_); ("gate", string_); ("terminal", string_)].

Definition ReservationDetailsSchema : Schema :=
  object_ [("seats", array_ string_);
           ("flightNumber", string_);
           ("departure", place_schema);
           ("arrival", place_schema);
           ("passengerName", string_);
           ("totalPriceInUSD", number_)].

Definition createReservation_execute (props : ReservationProps) : M Value :=
  totalPriceInUSD ← lift (generateReservationPrice env props);
  session ← auth;
  reservationId ← generateUUID;
  match session_user_id session with
  | Some userId =>
      let detailsToStore :=
        obj_set "totalPriceInUSD" (VNum totalPriceInUSD) (props_fields props) in
      _ ← Db.createReservation env reservationId userId (VObj detailsToStore);
      mret (VObj (obj_spread detailsToStore [("id", VStr reservationId)]))
  | None => mret (error_payload "User session lost. Cannot create reservation.")
  end.

(** The object literal [boardingPassData], its properties evaluated in
    order, read from the parsed details. *)
Definition boardingPassData (reservation : Reservation) (parsedDetails : Value)
  : M Value :=
  passengerName ← lift (prop parsedDetails "passengerName");
  flightNumber ← lift (prop parsedDetails "flightNumber");
  seats ← lift (prop parsedDetails "seats");
  seat ← lift (join seats ", ");
  departure ← lift (prop parsedDetails "departure");
  arrival ← lift (prop parsedDetails "arrival");
  mret (VObj [("reservationId", VStr (reservation_id reservation));
              ("passengerName", passengerName);
              ("flightNumber", flightNumber);
              ("seat", seat);
              ("departure", departure);
              ("arrival", arrival)]).

(** The parameter schema has [reservationId] only.  [safeParse] does not
    throw, so the [catch] around it in the source is never entered. *)
Definition displayBoardingPass_execute (reservationId : string) : M Value :=
  try_catch
    (reservation ← Db.getReservationById env reservationId;
     match reservation with
     | None => mret (error_payload ("Reservation " ++ reservationId ++ " not found."))
     | Some r =>
         if negb (hasCompletedPayment r) then
           mret (error_payload
                   "Payment not completed for this reservation. Cannot display boarding pass.")
         else
           match safeParse ReservationDetailsSchema (details r) with
           | None =>
               mret (error_payload "Invalid reservation details structure in database.")
           | Some parsedDetails => boardingPassData r parsedDetails
           end
     end)
    (fun _ =>
       mret (error_payload
               "An internal error occurred while retrieving boarding pass details.")).

(** The tools this document elides ("remain the same") are those of the
    second document. *)
Definition execute (call : ToolCall) : M Value :=
  match call with
  | CallCreateReservation props => createReservation_execute props
  | CallDisplayBoardingPass params =>
      displayBoardingPass_execute (bp_reservationId params)
  | _ => Direct.execute env call
  end.

Definition onFinish := Direct.onFinish env.

Definition POST : PostBody -> M Response := Direct.POST_with env execute.

Definition DELETE : option string -> M Response := Direct.DELETE env.

End Route.
End Validated.

(** ** The unnamed source file *)

Module Reverted.
Section Route.
Variable env : Env.

Definition getWeather_execute (latitude longitude : Z) : M Value :=
  response ← lift (fetch env latitude longitude);
  if negb (ok response) then mret (error_payload "Failed to fetch weather")
  else lift (json response).

Definition createReservation_execute (props : ReservationProps) : M Value :=
  try_catch
    (totalPriceInUSD ← lift (generateReservationPrice env props);
     currentSession ← auth;
     reservationId ← generateUUID;
     match session_user_id currentSession with
     | Some userId =>
         _ ← Db.createReservation env reservationId userId
               (VObj (obj_set "totalPriceInUSD" (VNum totalPriceInUSD)
                        (props_fields props)));
         mret (VObj (obj_set "totalPriceInUSD" (VNum totalPriceInUSD)
                       (obj_spread (props_fields props) [("id", VStr reservationId)])))
     | None => mret (error_payload "User is not signed in to perform this action!")
     end)
    (fun _ => mret (error_payload "Failed to create reservation.")).

Definition authorizePayment_execute (reservationId : string) : M Value :=
  mret (VObj [("reservationId", VStr reservationId);
              ("status", VStr "Awaiting user payment authorization")]).

Definition verifyPayment_execute (reservationId : string) : M Value :=
  try_catch
    (reservation ← Db.getReservationById env reservationId;
     match reservation with
     | None => mret (error_payload ("Reservation " ++ reservationId ++ " not found."))
     | Some r => mret (VObj [("hasCompletedPayment", VBool (hasCompletedPayment r))])
     end)
    (fun _ => mret (error_payload "Could not verify payment status.")).

(** After the two checks the parameters of the model come back, with a
    status added; the stored details are not read. *)
Definition displayBoardingPass_execute (boardingPassParams : BoardingPassParams)
  : M Value :=
  let reservationId := bp_reservationId boardingPassParams in
  try_catch
    (reservation ← Db.getReservationById env reservationId;
     match reservation with
     | None => mret (error_payload ("Reservation " ++ reservationId ++ " not found."))
     | Some r =>
         if negb (hasCompletedPayment r) then
           mret (error_payload "Payment not completed. Cannot display boarding pass.")
         else
           mret (VObj (obj_set "status"
                         (VStr "Displayed (using potentially unverified details)")
                         (params_fields boardingPassParams)))
     end)
    (fun _ => mret (error_payload "Could not display boarding pass.")).

Definition execute (call : ToolCall) : M Value :=
  match call with
  | CallGetWeather latitude longitude => getWeather_execute latitude longitude
  | CallDisplayFlightStatus flightNumber date =>
      lift (generateSampleFlightStatus env flightNumber date)
  | CallSearchFlights origin destination =>
      lift (generateSampleFlightSearchResults env origin destination)
  | CallSelectSeats flightNumber => lift (generateSampleSeatSelection env flightNumber)
  | CallCreateReservation props => createReservation_execute props
  | CallAuthorizePayment reservationId => authorizePayment_execute reservationId
  | CallVerifyPayment reservationId => verifyPayment_execute reservationId
  | CallDisplayBoardingPass params => displayBoardingPass_execute params
  end.

(** The session is resolved again when the stream has finished. *)
Definition onFinish (id : string) (coreMessages : list Message)
    (responseMessages : list Message) : M unit :=
  currentSession ← auth;
  match session_user_id currentSession with
  | Some userId =>
      try_catch (Db.saveChat env id (coreMessages ++ responseMessages) userId)
        (fun _ => mret tt)
  | None => mret tt
  end.

(** The handler after its first statement, the reading of the body, which
    is in [POST_of_request].  No [try] surrounds [streamText] here: a
    failing model call leaves the handler by exception. *)
Definition POST (request : PostBody) : M Response :=
  session ← auth;
  match session with
  | None => mret (text_response 401 "Unauthorized")
  | Some _ =>
      let coreMessages := core_messages env (body_messages request) in
      _ ← streamText env execute coreMessages (onFinish (body_id request) coreMessages);
      mret {| status := 200; body := DataStream |}
  end.

(** [!session || !session.user] lets a user without an id through; the
    ownership test then compares the owner with [undefined]. *)
Definition DELETE (id : option string) : M Response :=
  if missing id then mret (text_response 404 "Not Found")
  else
    let id := default "" id in
    session ← auth;
    match session with
    | Some {| user := Some u |} =>
        try_catch
          (chat ← Db.getChatById env id;
           match chat with
           | None => mret (text_response 404 "Not Found")
           | Some c =>
               if negb (bool_decide (Some (chat_userId c) = user_id u)) then
                 mret (text_response 401 "Unauthorized")
               else
                 _ ← Db.deleteChatById env id;
                 mret (text_response 200 "Chat deleted")
           end)
          (fun _ =>
             mret (text_response 500 "An error occurred while processing your request"))
    | _ => mret (text_response 401 "Unauthorized")
    end.

End Route.
End Reverted.

(** ** The three editions side by side *)

Inductive Edition : Type := validated | direct | reverted.

Definition POST_of (ed : Edition) (env : Env) : PostBody -> M Response :=
  match ed with
  | validated => Validated.POST env
  | direct => Direct.POST env
  | reverted => Reverted.POST env
  end.

Definition DELETE_of (ed : Edition) (env : Env) : option string -> M Response :=
  match ed with
  | validated => Validated.DELETE env
  | direct => Direct.DELETE env
  | reverted => Reverted.DELETE env
  end.

Definition execute_of (ed : Edition) (env : Env) : ToolCall -> M Value :=
  match ed with
  | validated => Validated.execute env
  | direct => Direct.execute env
  | reverted => Reverted.execute env
  end.

Definition createReservation_of (ed : Edition) (env : Env) (props : ReservationProps)
  : M Value := execute_of ed env (CallCreateReservation props).

Definition verifyPayment_of (ed : Edition) (env : Env) (reservationId : string)
  : M Value := execute_of ed env (CallVerifyPayment reservationId).

Definition displayBoardingPass_of (ed : Edition) (env : Env) (params : BoardingPassParams)
  : M Value := execute_of ed env (CallDisplayBoardingPass params).

(** The completion callback as [POST] installs it; [entry] is the session
    resolved when the request came in, which the unnamed file does not use. *)
Definition onFinish_of (ed : Edition) (env : Env) (id : string)
    (coreMessages : list Message) (entry : Session) : list Message -> M unit :=
  match ed with
  | validated => Validated.onFinish env id coreMessages entry
  | direct => Direct.onFinish env id coreMessages entry
  | reverted => Reverted.onFinish env id coreMessages
  end.

(** ** The whole POST handler *)



(** ** Vocabulary of the statements *)

(** The passenger and flight fields of a boarding pass. *)
Definition boarding_keys : list string :=
  ["passengerName"; "flightNumber"; "seat"; "departure"; "arrival"].

Definition carries_boarding_data (v : Value) : bool :=
  existsb (fun k => has_key k v) boarding_keys.

(** The payment flag of the stored reservation, when there is one. *)
Definition payment_flag (w : World) (reservationId : string) : option bool :=
  hasCompletedPayment <$> reservations w !! reservationId.

(** The record createReservation hands back: [{ id, ...props, totalPriceInUSD }]. *)
Definition reservation_record (id : string) (props : ReservationProps) (price : Z)
  : Value :=
  VObj (("id", VStr id) :: props_fields props ++ [("totalPriceInUSD", VNum price)]).

(** The details createReservation stores: [{ ...props, totalPriceInUSD }]. *)
Definition reservation_details (props : ReservationProps) (price : Z) : Value :=
  VObj (props_fields props ++ [("totalPriceInUSD", VNum price)]).

Definition touches_chats (e : Event) : bool :=
  match e with
  | EvSaveChat _ _ _ | EvDeleteChatById _ => true
  | _ => false
  end.

(** The session the completion callback tests: the one of request entry in
    route.ts, the one in force when the stream ends in the unnamed file. *)
Definition finish_session (ed : Edition) (entry : Session) (at_finish : World)
  : option Session :=
  match ed with
  | reverted => session at_finish
  | _ => Some entry
  end.

(** [w'] differs from [w] by steps that leave the chat table alone: the chats
    are the same, the session is the same or has run out, and the calls made
    in between neither save nor delete a chat. *)
Definition chats_untouched (w w' : World) : Prop :=
  chats w' = chats w
  /\ (session w' = session w \/ session w' = None)
  /\ exists calls, trace w' = (trace w ++ calls)%list
                   /\ Forall (fun e => touches_chats e = false) calls.

(** The session in force is the same in [w'] as in [w]. *)
Definition same_session (w w' : World) : Prop := session w' = session w.

(** A computation that takes every world to one related to it by [R]. *)
Definition preserves (R : World -> World -> Prop) {A} (m : M A) : Prop :=
  forall w, R w (m w).2.

(** A computation that neither reads nor changes the world. *)
Definition worldless {A} (m : M A) : Prop :=
  exists o, forall w, m w = (o, w).

(** ** Sample data *)

Definition signed_in (uid : string) : Session :=
  {| user := Some {| user_id := Some uid |} |}.

Definition sfo : Place :=
  {| cityName := "San Francisco"; airportCode := "SFO";
     timestamp := "2025-04-01T08:00:00Z"; gate := "A1"; terminal := "1" |}.

Definition jfk : Place :=
  {| cityName := "New York"; airportCode := "JFK";
     timestamp := "2025-04-01T16:30:00Z"; gate := "B7"; terminal := "4" |}.

Definition alice_trip : ReservationProps :=
  {| seats := ["12A"; "12B"]; flightNumber := "BA142";
     departure := sfo; arrival := jfk; passengerName := "Alice Liddell" |}.

Definition alice_reservation (paid : bool) : Reservation :=
  {| reservation_id := "r1"; reservation_userId := "alice";
     details := reservation_details alice_trip 420; hasCompletedPayment := paid |}.

Definition hello : Message := {| role := "user"; content := Text "book SFO to JFK" |}.
Definition blank : Message := {| role := "user"; content := Text "" |}.
Definition reply : Message := {| role := "assistant"; content := Text "Searching." |}.

Definition alice_chat : Chat :=
  {| chat_id := "c1"; chat_messages := [hello]; chat_userId := "alice" |}.

(** Collaborators that all answer: the model asks for no tool and replies
    once, no query fails. *)
Definition quiet_env : Env :=
  {| convertToCoreMessages := fun l => l;
     generateReservationPrice := fun _ => Returned 420;
     generateSampleFlightStatus := fun _ _ => Returned VNull;
     generateSampleFlightSearchResults := fun _ _ => Returned VNull;
     generateSampleSeatSelection := fun _ => Returned VNull;
     fetch := fun _ _ => Returned {| ok := false; statusText := "Bad Gateway";
                                     json := Returned VNull |};
     hosted_model := fun _ => Returned {| steps := []; finish := Some [reply] |};
     db_fault := fun _ => None |}.

(** The same collaborators, but the session runs out while the model
    streams. *)
Definition expiring_env : Env :=
  {| convertToCoreMessages := convertToCoreMessages quiet_env;
     generateReservationPrice := generateReservationPrice quiet_env;
     generateSampleFlightStatus := generateSampleFlightStatus quiet_env;
     generateSampleFlightSearchResults := generateSampleFlightSearchResults quiet_env;
     generateSampleSeatSelection := generateSampleSeatSelection quiet_env;
     fetch := fetch quiet_env;
     hosted_model := fun _ => Returned {| steps := [SessionExpires];
                                          finish := Some [reply] |};
     db_fault := db_fault quiet_env |}.

Definition world_of (paid : bool) (s : option Session) : World :=
  {| chats := {[ "c1" := alice_chat ]};
     reservations := {[ "r1" := alice_reservation paid ]};
     session := s; trace := [] |}.

(** What the model sends when it asks for a boarding pass under a name that
    is not the stored one. *)
Definition forged_params : BoardingPassParams :=
  {| bp_reservationId := "r1"; bp_passengerName := "Mallory";
     bp_flightNumber := "ZZ999"; bp_seat := "1A";
     bp_departure := []; bp_arrival := [] |}.



(** ** Further vocabulary and sample data *)

(** What a POST may do to the chat table: no delete, and a save only for the
    chat id of the request, under the user id of the session of request
    entry, of the core messages followed by further messages. *)
Definition allowed_write (id : string) (coreMessages : list Message)
    (entry : option Session) (e : Event) : Prop :=
  match e with
  | EvDeleteChatById _ => False
  | EvSaveChat i messages userId =>
      i = id /\ session_user_id entry = Some userId
      /\ exists responseMessages, messages = (coreMessages ++ responseMessages)%list
  | _ => True
  end.

(** The tools that concern no reservation. *)
Definition store_free (call : ToolCall) : bool :=
  match call with
  | CallCreateReservation _ | CallVerifyPayment _ | CallDisplayBoardingPass _ => false
  | _ => true
  end.

(** The boarding pass of a reservation stored with the given props. *)
Definition boarding_pass_of (id : string) (props : ReservationProps) : Value :=
  VObj [("reservationId", VStr id);
        ("passengerName", VStr (passengerName props));
        ("flightNumber", VStr (flightNumber props));
        ("seat", VStr (join_strings ", " (seats props)));
        ("departure", place_value (departure props));
        ("arrival", place_value (arrival props))].

(** The collaborators of [quiet_env] with a database that refuses every
    query. *)
Definition offline_env : Env :=
  {| convertToCoreMessages := convertToCoreMessages quiet_env;
     generateReservationPrice := generateReservationPrice quiet_env;
     generateSampleFlightStatus := generateSampleFlightStatus quiet_env;
     generateSampleFlightSearchResults := generateSampleFlightSearchResults quiet_env;
     generateSampleSeatSelection := generateSampleSeatSelection quiet_env;
     fetch := fetch quiet_env;
     hosted_model := hosted_model quiet_env;
     db_fault := fun _ => Some (JsError "connection refused") |}.

(** The collaborators of [quiet_env] with a model call that fails on a
    quota. *)
Definition throttled_env : Env :=
  {| convertToCoreMessages := convertToCoreMessages quiet_env;
     generateReservationPrice := generateReservationPrice quiet_env;
     generateSampleFlightStatus := generateSampleFlightStatus quiet_env;
     generateSampleFlightSearchResults := generateSampleFlightSearchResults quiet_env;
     generateSampleSeatSelection := generateSampleSeatSelection quiet_env;
     fetch := fetch quiet_env;
     hosted_model := fun _ => Threw (JsError "quota exceeded: model not found");
     db_fault := db_fault quiet_env |}.

(** * Properties *)

Ltac unfold_monad :=
  unfold mbind, M_bind, mret, M_ret, bind, ret, throw, try_catch, settle, lift in *.

Ltac unfold_db :=
  unfold Db.getReservationById, Db.getChatById, Db.saveChat, Db.createReservation,
    Db.deleteChatById, Db.query, auth, generateUUID in *.

Ltac each_edition ed := destruct ed; cbn [POST_of DELETE_of execute_of onFinish_of
  createReservation_of verifyPayment_of displayBoardingPass_of finish_session
  Validated.execute Direct.execute Reverted.execute] in *.

(** ** The payment gate of displayBoardingPass *)

(** C1.  In each edition, a displayBoardingPass call whose stored reservation
    has its payment flag down answers with an error payload, which has no
    passenger or flight field; and whatever the state of the reservation
    table, an answer with a passenger or flight field means the stored flag
    is up. *)
Theorem displayBoardingPass_payment_gate
    (ed : Edition) (env : Env) (params : BoardingPassParams) (w : World) :
  (payment_flag w (bp_reservationId params) = Some false ->
   exists msg, (displayBoardingPass_of ed env params w).1 = Returned (error_payload msg)
               /\ carries_boarding_data (error_payload msg) = false)
  /\ (forall v, (displayBoardingPass_of ed env params w).1 = Returned v ->
      carries_boarding_data v = true ->
      payment_flag w (bp_reservationId params) = Some true).
Proof.
  unfold payment_flag, displayBoardingPass_of.
  each_edition ed;
    unfold Validated.displayBoardingPass_execute, Direct.displayBoardingPass_execute,
      Reverted.displayBoardingPass_execute;
    unfold_db; unfold_monad; cbn;
    (destruct (db_fault env QgetReservationById) as [err|]; cbn;
     [ split; [eauto | intros v [= <-]; discriminate] | ]);
    (destruct (reservations w !! bp_reservationId params) as [r|]; cbn;
     [ | split; [discriminate | intros v [= <-]; discriminate] ]);
    (destruct (hasCompletedPayment r); cbn;
     [ split; [discriminate | reflexivity]
     | split; [eauto | intros v [= <-]; discriminate] ]).
Qed.

Lemma displayBoardingPass_payment_gate_witness :
  exists msg,
    (displayBoardingPass_of direct quiet_env forged_params (world_of false None)).1
    = Returned (error_payload msg).
Proof.
  destruct (displayBoardingPass_payment_gate direct quiet_env forged_params
              (world_of false None)) as [refused _].
  destruct (refused eq_refl) as [msg [answer _]].
  exists msg. exact answer.
Defined.

(** ** Where the boarding pass comes from *)

Lemma parse_strings (items parsed : list Value) :
  mapM (safeParse string_) items = Some parsed ->
  parsed = items /\ exists names, items = map VStr names.
Proof.
  rewrite mapM_Some. induction 1 as [|v v' items parsed Hv _ [-> [names ->]]].
  - split; [reflexivity | exists []; reflexivity].
  - destruct v; try discriminate. injection Hv as <-.
    split; [reflexivity | exists (s :: names); reflexivity].
Qed.

Lemma join_string_items (sep : string) (names : list string) :
  join (VArr (map VStr names)) sep = Returned (VStr (join_strings sep names)).
Proof.
  cbn. rewrite map_map. cbn. rewrite map_id. reflexivity.
Qed.

Lemma parse_string_field (fields : list (string * Value)) (k : string) (x : Value) :
  safeParse string_ (default VUndef (obj_lookup k fields)) = Some x ->
  exists s, x = VStr s /\ obj_lookup k fields = Some (VStr s).
Proof.
  destruct (obj_lookup k fields) as [[]|]; cbn; try discriminate.
  intros [= <-]. eauto.
Qed.

Lemma parse_object (shape : list (string * Schema)) (v d : Value) :
  safeParse (object_ shape) v = Some d ->
  exists fields parsed,
    v = VObj fields /\ d = VObj parsed /\
    Forall2 (fun entry kv =>
               pair entry.1 <$> safeParse entry.2 (default VUndef (obj_lookup entry.1 fields))
               = Some kv) shape parsed.
Proof.
  destruct v; cbn; try discriminate.
  intros H. apply fmap_Some in H as [parsed [H ->]].
  apply mapM_Some in H. eauto.
Qed.

Ltac split_shape :=
  repeat match goal with
    | H : Forall2 _ (_ :: _) _ |- _ => inversion H; clear H; subst
    | H : Forall2 _ [] _ |- _ => inversion H; clear H; subst
    | H : pair _ <$> _ = Some _ |- _ =>
        let x := fresh "x" in let Hx := fresh "Hx" in
        apply fmap_Some in H as [x [Hx ->]]
    end.

(** The first document of route.ts keeps to the rule of C2: with a stored,
    paid reservation it answers either the validation error, when the stored
    details fail the schema, or a boarding pass whose passenger, flight and
    seats are the stored ones and whose id is the stored id. *)
Lemma validated_boarding_pass_from_store
    (env : Env) (reservationId : string) (w : World) (r : Reservation) :
  db_fault env QgetReservationById = None ->
  reservations w !! reservationId = Some r ->
  hasCompletedPayment r = true ->
  let answer := (Validated.displayBoardingPass_execute env reservationId w).1 in
  match safeParse Validated.ReservationDetailsSchema (details r) with
  | None =>
      answer = Returned (error_payload "Invalid reservation details structure in database.")
  | Some _ =>
      exists name flight names from to,
        prop (details r) "passengerName" = Returned (VStr name)
        /\ prop (details r) "flightNumber" = Returned (VStr flight)
        /\ prop (details r) "seats" = Returned (VArr (map VStr names))
        /\ (exists stored, prop (details r) "departure" = Returned stored
                           /\ safeParse Validated.place_schema stored = Some from)
        /\ (exists stored, prop (details r) "arrival" = Returned stored
                           /\ safeParse Validated.place_schema stored = Some to)
        /\ answer = Returned (VObj [("reservationId", VStr (reservation_id r));
                                    ("passengerName", VStr name);
                                    ("flightNumber", VStr flight);
                                    ("seat", VStr (join_strings ", " names));
                                    ("departure", from);
                                    ("arrival", to)])
  end.
Proof.
  intros Hdb Hr Hpaid. unfold Validated.displayBoardingPass_execute.
  unfold_db. unfold_monad. rewrite Hdb. cbn [fst snd reservations record].
  rewrite Hr, Hpaid. cbn [negb].
  destruct (safeParse Validated.ReservationDetailsSchema (details r)) as [d|] eqn:Hparse;
    [|reflexivity].
  apply parse_object in Hparse as (fields & parsed & Hd & -> & Hshape).
  rewrite Hd. cbn in Hshape. split_shape. cbn [fst snd] in *.
  apply parse_string_field in Hx3 as (flight & -> & Hflight).
  apply parse_string_field in Hx0 as (name & -> & Hname).
  destruct (obj_lookup "seats" fields) as [[| | | | |items|]|] eqn:Hseats;
    try discriminate.
  cbn in Hx4. apply fmap_Some in Hx4 as (parsed & Hitems & ->).
  apply parse_strings in Hitems as [-> [names ->]].
  exists name, flight, names, x2, x1.
  unfold Validated.boardingPassData. unfold_monad.
  cbn. rewrite Hname, Hflight, Hseats. cbn.
  rewrite map_map. cbn. rewrite map_id.
  repeat split; try reflexivity.
  - exists (default VUndef (obj_lookup "departure" fields)).
    split; [destruct (obj_lookup "departure" fields); reflexivity | exact Hx2].
  - exists (default VUndef (obj_lookup "arrival" fields)).
    split; [destruct (obj_lookup "arrival" fields); reflexivity | exact Hx1].
Qed.

(** The unnamed file, for every paid reservation: the answer is made of the
    parameters of the call, whatever the stored details are. *)
Lemma reverted_boarding_pass_ignores_store
    (env : Env) (params : BoardingPassParams) (w : World) (r : Reservation) :
  db_fault env QgetReservationById = None ->
  reservations w !! bp_reservationId params = Some r ->
  hasCompletedPayment r = true ->
  (Reverted.displayBoardingPass_execute env params w).1
  = Returned (VObj (params_fields params
                      ++ [("status", VStr "Displayed (using potentially unverified details)")])).
Proof.
  intros Hdb Hr Hpaid. unfold Reverted.displayBoardingPass_execute.
  unfold_db. unfold_monad. rewrite Hdb. cbn. rewrite Hr. cbn. rewrite Hpaid.
  reflexivity.
Qed.

(** The second document of route.ts reads the stored details without
    validating them: details that hold an empty seat list and nothing else
    come back as a boarding pass with undefined passenger and flight. *)
Example direct_boarding_pass_unvalidated :
  let stored := {| reservation_id := "r1"; reservation_userId := "alice";
                   details := VObj [("seats", VArr [])];
                   hasCompletedPayment := true |} in
  let w := with_reservations {[ "r1" := stored ]} (world_of true None) in
  (Direct.displayBoardingPass_execute quiet_env forged_params w).1
  = Returned (VObj [("reservationId", VStr "r1"); ("passengerName", VUndef);
                    ("flightNumber", VUndef); ("seat", VStr "");
                    ("departure", VUndef); ("arrival", VUndef)]).
Proof. reflexivity. Qed.

(** C2.  The unnamed file breaks the rule: for alice's paid reservation it
    answers the passenger, flight and seat the model sent (Mallory, ZZ999,
    1A), not the stored ones (Alice Liddell, BA142, 12A and 12B), and no
    validation of the stored details takes place. *)
Theorem reverted_boarding_pass_echoes_the_model :
  let w := world_of true (Some (signed_in "alice")) in
  payment_flag w "r1" = Some true
  /\ (details <$> reservations w !! "r1") = Some (reservation_details alice_trip 420)
  /\ (displayBoardingPass_of reverted quiet_env forged_params w).1
     = Returned (VObj [("reservationId", VStr "r1");
                       ("passengerName", VStr "Mallory");
                       ("flightNumber", VStr "ZZ999");
                       ("seat", VStr "1A");
                       ("departure", VObj []);
                       ("arrival", VObj []);
                       ("status", VStr "Displayed (using potentially unverified details)")])
  /\ (displayBoardingPass_of validated quiet_env forged_params w).1
     = Returned (VObj [("reservationId", VStr "r1");
                       ("passengerName", VStr "Alice Liddell");
                       ("flightNumber", VStr "BA142");
                       ("seat", VStr "12A, 12B");
                       ("departure", place_value sfo);
                       ("arrival", place_value jfk)]).
Proof. repeat split; reflexivity. Qed.

(** ** Requests without a session *)




(** ** createReservation *)

Ltac unfold_createReservation :=
  unfold Validated.createReservation_execute, Direct.createReservation_execute,
    Reverted.createReservation_execute.

(** C4.  In every edition, when the session resolved inside createReservation
    has no user id, the reservation table is left as it was and no query is
    issued, whatever the pricing function does; and once the pricing
    function has returned, so that the session is resolved again, the tool
    answers with an error payload. *)
Theorem createReservation_without_session
    (ed : Edition) (env : Env) (props : ReservationProps) (w : World) :
  session_user_id (session w) = None ->
  let out := createReservation_of ed env props w in
  reservations out.2 = reservations w
  /\ chats out.2 = chats w
  /\ (out.2 = w \/ out.2 = record EvAuth w)
  /\ (forall price, generateReservationPrice env props = Returned price ->
      exists msg, out = (Returned (error_payload msg), record EvAuth w)).
Proof.
  intros Hs.
  each_edition ed; unfold_createReservation; unfold_db; unfold_monad;
    destruct (generateReservationPrice env props) as [price|err]; cbn;
    rewrite ?Hs; cbn;
    (repeat split; eauto; discriminate).
Qed.

Lemma createReservation_without_session_witness :
  exists msg,
    createReservation_of validated quiet_env alice_trip (world_of false None)
    = (Returned (error_payload msg), record EvAuth (world_of false None)).
Proof.
  destruct (createReservation_without_session validated quiet_env alice_trip
              (world_of false None) eq_refl) as (_ & _ & _ & refused).
  exact (refused 420 eq_refl).
Defined.

(** C5.  In every edition, with a session that has a user id, a pricing
    function that returns and an insert that does not fail, createReservation
    picks an id that is no key of the reservation table, stores under it a
    record owned by the user whose details are the props with the price the
    pricing function gave for these props, and answers
    [{ id, ...props, totalPriceInUSD }] with that id and that price. *)
Theorem createReservation_persists_priced_record
    (ed : Edition) (env : Env) (props : ReservationProps) (w : World)
    (userId : string) (price : Z) :
  session_user_id (session w) = Some userId ->
  generateReservationPrice env props = Returned price ->
  db_fault env QcreateReservation = None ->
  let out := createReservation_of ed env props w in
  exists id,
    reservations w !! id = None
    /\ out.1 = Returned (reservation_record id props price)
    /\ reservations out.2
       = <[id := {| reservation_id := id; reservation_userId := userId;
                    details := reservation_details props price;
                    hasCompletedPayment := false |}]> (reservations w)
    /\ prop (reservation_details props price) "totalPriceInUSD" = Returned (VNum price)
    /\ trace out.2
       = (trace w ++ [EvAuth; EvCreateReservation id userId
                                (reservation_details props price)])%list.
Proof.
  intros Hs Hprice Hdb. exists (fresh (dom (reservations w))).
  split; [apply not_elem_of_dom, is_fresh|].
  each_edition ed; unfold_createReservation; unfold_db; unfold_monad;
    rewrite Hprice; cbn; rewrite Hs, Hdb; cbn;
    rewrite <- app_assoc; repeat split; reflexivity.
Qed.

(** The three conditions of C5 are what a successful execution amounts to:
    an answer that is not an error payload means that the pricing function
    returned, the session had a user id and the insert went through. *)
Lemma createReservation_success
    (ed : Edition) (env : Env) (props : ReservationProps) (w : World) (v : Value) :
  (createReservation_of ed env props w).1 = Returned v ->
  is_error_payload v = false ->
  exists userId price,
    session_user_id (session w) = Some userId
    /\ generateReservationPrice env props = Returned price
    /\ db_fault env QcreateReservation = None.
Proof.
  each_edition ed; unfold_createReservation; unfold_db; unfold_monad;
    (destruct (generateReservationPrice env props) as [price|err]; cbn;
     [|try discriminate; intros [= <-]; discriminate]);
    (destruct (session_user_id (session w)) as [userId|]; cbn;
     [|intros [= <-]; discriminate]);
    (destruct (db_fault env QcreateReservation); cbn;
     [try discriminate; intros [= <-]; discriminate|]);
    intros _ _; eauto.
Qed.

Lemma createReservation_persists_priced_record_witness :
  exists id,
    reservations (world_of false (Some (signed_in "alice"))) !! id = None
    /\ (createReservation_of reverted quiet_env alice_trip
          (world_of false (Some (signed_in "alice")))).1
       = Returned (reservation_record id alice_trip 420).
Proof.
  destruct (createReservation_persists_priced_record reverted quiet_env alice_trip
              (world_of false (Some (signed_in "alice"))) "alice" 420
              eq_refl eq_refl eq_refl) as (id & fresh_id & answer & _).
  exists id. split; [exact fresh_id | exact answer].
Defined.

(** ** DELETE *)

Ltac unfold_DELETE :=
  unfold Validated.DELETE, Direct.DELETE, Reverted.DELETE.

(** Both documents of route.ts keep to C7: a signed-in user who asks to delete
    a chat of somebody else is answered 403; the chat table is as it was and
    the only calls are [auth] and the lookup. *)
Lemma route_delete_foreign_chat
    (env : Env) (id caller : string) (c : Chat) (w : World) :
  id <> "" ->
  session_user_id (session w) = Some caller ->
  db_fault env QgetChatById = None ->
  chats w !! id = Some c ->
  chat_userId c <> caller ->
  Direct.DELETE env (Some id) w
  = (Returned (json_response 403 (error_payload "Forbidden")),
     record (EvGetChatById id) (record EvAuth w))
  /\ Validated.DELETE env = Direct.DELETE env.
Proof.
  intros Hid Hs Hdb Hc Howner. split; [|reflexivity].
  unfold_DELETE. unfold_db. unfold_monad. cbn.
  apply String.eqb_neq in Hid, Howner. rewrite Hid, Hs, Hdb. cbn.
  rewrite Hc, Howner. reflexivity.
Qed.

(** The unnamed file leaves the chat in place as well, but its answer to the
    same request is 401. *)
Lemma reverted_delete_foreign_chat
    (env : Env) (id caller : string) (c : Chat) (w : World) :
  id <> "" ->
  session w = Some (signed_in caller) ->
  db_fault env QgetChatById = None ->
  chats w !! id = Some c ->
  chat_userId c <> caller ->
  Reverted.DELETE env (Some id) w
  = (Returned (text_response 401 "Unauthorized"),
     record (EvGetChatById id) (record EvAuth w)).
Proof.
  intros Hid Hs Hdb Hc Howner.
  unfold_DELETE. unfold_db. unfold_monad. cbn.
  apply String.eqb_neq in Hid. rewrite Hid, Hs, Hdb. cbn. rewrite Hc.
  rewrite bool_decide_eq_false_2; [reflexivity | congruence].
Qed.

(** C7.  Bob asks to delete alice's chat c1.  Every edition leaves the chat
    in place and issues no delete; route.ts answers 403, the unnamed file
    answers 401. *)
Theorem reverted_delete_foreign_chat_is_401 :
  let w := world_of false (Some (signed_in "bob")) in
  let seen := record (EvGetChatById "c1") (record EvAuth w) in
  chats w !! "c1" = Some alice_chat
  /\ DELETE_of reverted quiet_env (Some "c1") w
     = (Returned (text_response 401 "Unauthorized"), seen)
  /\ DELETE_of direct quiet_env (Some "c1") w
     = (Returned (json_response 403 (error_payload "Forbidden")), seen)
  /\ DELETE_of validated quiet_env (Some "c1") w
     = (Returned (json_response 403 (error_payload "Forbidden")), seen)
  /\ chats seen !! "c1" = Some alice_chat.
Proof. repeat split; reflexivity. Qed.

(** Both documents of route.ts keep to C9: without an id the answer is 400
    with an error payload, and the world is untouched, so neither [auth] nor
    a query has been called. *)
Lemma route_delete_without_id (env : Env) (id : option string) (w : World) :
  missing id = true ->
  Direct.DELETE env id w
  = (Returned (json_response 400 (error_payload "Chat ID is required")), w)
  /\ Validated.DELETE env id w = Direct.DELETE env id w.
Proof.
  intros Hid. split; [|reflexivity].
  unfold_DELETE. rewrite Hid. reflexivity.
Qed.

(** The unnamed file also answers before anything else is called, but with
    404 and the plain text Not Found. *)
Lemma reverted_delete_without_id (env : Env) (id : option string) (w : World) :
  missing id = true ->
  Reverted.DELETE env id w = (Returned (text_response 404 "Not Found"), w).
Proof.
  intros Hid. unfold_DELETE. rewrite Hid. reflexivity.
Qed.

(** C9.  A DELETE whose URL has no id parameter.  Every edition answers
    without calling [auth] or the store; route.ts answers 400 with an error
    payload, the unnamed file answers 404 with a plain text. *)
Theorem reverted_delete_without_id_is_404 :
  let w := world_of false (Some (signed_in "alice")) in
  DELETE_of reverted quiet_env None w = (Returned (text_response 404 "Not Found"), w)
  /\ DELETE_of direct quiet_env None w
     = (Returned (json_response 400 (error_payload "Chat ID is required")), w)
  /\ DELETE_of validated quiet_env None w
     = (Returned (json_response 400 (error_payload "Chat ID is required")), w).
Proof. repeat split; reflexivity. Qed.


(** ** What tools leave alone *)

Lemma chats_untouched_refl (w : World) : chats_untouched w w.
Proof.
  split; [reflexivity|]. split; [left; reflexivity|].
  exists []. split; [symmetry; apply app_nil_r | constructor].
Qed.

Lemma chats_untouched_trans (w1 w2 w3 : World) :
  chats_untouched w1 w2 -> chats_untouched w2 w3 -> chats_untouched w1 w3.
Proof.
  intros (Hc & Hs & calls & Ht & Hcalls) (Hc' & Hs' & calls' & Ht' & Hcalls').
  split; [congruence|]. split.
  - destruct Hs' as [Hs'|Hs']; [rewrite Hs'; exact Hs | right; exact Hs'].
  - exists (calls ++ calls')%list. split.
    + rewrite Ht', Ht. symmetry. apply app_assoc.
    + apply Forall_app. split; assumption.
Qed.

Lemma chats_untouched_record (e : Event) (w : World) :
  touches_chats e = false -> chats_untouched w (record e w).
Proof.
  intros He. split; [reflexivity|]. split; [left; reflexivity|].
  exists [e]. split; [reflexivity | repeat constructor; exact He].
Qed.

Lemma chats_untouched_reservations (r : gmap string Reservation) (w : World) :
  chats_untouched w (with_reservations r w).
Proof.
  split; [reflexivity|]. split; [left; reflexivity|].
  exists []. split; [symmetry; apply app_nil_r | constructor].
Qed.

(** Tools preserve every relation between worlds that is a preorder and
    holds across a call that is not a chat write and across a change of the
    reservation table. *)
Section Frames.
Variable R : World -> World -> Prop.
Hypothesis R_refl : forall w, R w w.
Hypothesis R_trans : forall w1 w2 w3, R w1 w2 -> R w2 w3 -> R w1 w3.
Hypothesis R_record : forall e w, touches_chats e = false -> R w (record e w).
Hypothesis R_reservations : forall r w, R w (with_reservations r w).

Lemma preserves_ret {A} (a : A) : preserves R (mret a).
Proof. intros w. apply R_refl. Qed.

Lemma preserves_lift {A} (o : Outcome A) : preserves R (lift o).
Proof. intros w. apply R_refl. Qed.

Lemma preserves_bind {A B} (m : M A) (k : A -> M B) :
  preserves R m -> (forall a, preserves R (k a)) -> preserves R (m ≫= k).
Proof.
  intros Hm Hk w. unfold_monad. specialize (Hm w).
  destruct (m w) as [[a|e] w1]; cbn in *; [|exact Hm].
  eapply R_trans; [exact Hm | apply Hk].
Qed.

Lemma preserves_try_catch {A} (m : M A) (handler : Thrown -> M A) :
  preserves R m -> (forall e, preserves R (handler e)) ->
  preserves R (try_catch m handler).
Proof.
  intros Hm Hh w. unfold try_catch. specialize (Hm w).
  destruct (m w) as [[a|e] w1]; cbn in *; [exact Hm|].
  eapply R_trans; [exact Hm | apply Hh].
Qed.

Lemma preserves_settle {A} (m : M A) : preserves R m -> preserves R (settle m).
Proof.
  intros Hm w. unfold settle. specialize (Hm w). destruct (m w). exact Hm.
Qed.

Lemma preserves_auth : preserves R auth.
Proof. intros w. apply R_record. reflexivity. Qed.

Lemma preserves_generateUUID : preserves R generateUUID.
Proof. intros w. apply R_refl. Qed.

Lemma preserves_getReservationById (env : Env) (id : string) :
  preserves R (Db.getReservationById env id).
Proof.
  intros w. unfold_db. destruct (db_fault env QgetReservationById);
    apply R_record; reflexivity.
Qed.

Lemma preserves_createReservation (env : Env) (id userId : string) (d : Value) :
  preserves R (Db.createReservation env id userId d).
Proof.
  intros w. unfold_db. destruct (db_fault env QcreateReservation); cbn.
  - apply R_record. reflexivity.
  - eapply R_trans; [|apply R_reservations]. apply R_record. reflexivity.
Qed.

Ltac frame :=
  repeat first
    [ apply preserves_ret
    | apply preserves_lift
    | apply preserves_auth
    | apply preserves_generateUUID
    | apply preserves_getReservationById
    | apply preserves_createReservation
    | apply preserves_settle
    | apply preserves_bind; [|intros ?]
    | apply preserves_try_catch; [|intros ?]
    | match goal with
      | |- preserves _ (match ?x with _ => _ end) => destruct x
      | |- preserves _ (if ?x then _ else _) => destruct x
      end ].

Lemma execute_preserves (ed : Edition) (env : Env) (call : ToolCall) :
  preserves R (execute_of ed env call).
Proof.
  each_edition ed; destruct call; cbn;
    unfold Validated.createReservation_execute, Validated.displayBoardingPass_execute,
      Validated.boardingPassData,
      Direct.getWeather_execute, Direct.displayFlightStatus_execute,
      Direct.searchFlights_execute, Direct.selectSeats_execute,
      Direct.createReservation_execute, Direct.authorizePayment_execute,
      Direct.verifyPayment_execute, Direct.displayBoardingPass_execute,
      Direct.boardingPassData,
      Reverted.getWeather_execute, Reverted.createReservation_execute,
      Reverted.authorizePayment_execute, Reverted.verifyPayment_execute,
      Reverted.displayBoardingPass_execute;
    frame.
Qed.

(** The steps of a stream never throw, and they preserve [R] as long as the
    loss of the session does, or does not occur. *)
Lemma run_steps_preserves (ed : Edition) (env : Env) (l : list StreamStep) (w : World) :
  (forall w', R w' (with_session None w')) \/ ~ In SessionExpires l ->
  (run_steps (execute_of ed env) l w).1 = Returned tt
  /\ R w (run_steps (execute_of ed env) l w).2.
Proof.
  revert w. induction l as [|[call|] rest IH]; intros w Hexp.
  - split; [reflexivity | apply R_refl].
  - cbn [run_steps]. unfold_monad.
    pose proof (execute_preserves ed env call w) as Hcall.
    destruct (execute_of ed env call w) as [o w1]; cbn in *.
    destruct (IH w1) as [Hdone Hrest]; [tauto|].
    split; [exact Hdone | eapply R_trans; eassumption].
  - cbn [run_steps]. unfold_monad. destruct Hexp as [Hexp|Hexp]; [|cbn in Hexp; tauto].
    destruct (IH (with_session None w)) as [Hdone Hrest]; [left; exact Hexp|].
    split; [exact Hdone | eapply R_trans; [apply Hexp | exact Hrest]].
Qed.

End Frames.

Lemma run_steps_leaves_chats (ed : Edition) (env : Env) (l : list StreamStep) (w : World) :
  (run_steps (execute_of ed env) l w).1 = Returned tt
  /\ chats_untouched w (run_steps (execute_of ed env) l w).2.
Proof.
  apply run_steps_preserves;
    auto using chats_untouched_refl, chats_untouched_record, chats_untouched_reservations.
  - exact chats_untouched_trans.
  - left. intros w'. split; [reflexivity|]. split; [right; reflexivity|].
    exists []. split; [symmetry; apply app_nil_r | constructor].
Qed.

Lemma run_steps_keeps_session (ed : Edition) (env : Env) (l : list StreamStep) (w : World) :
  ~ In SessionExpires l ->
  session (run_steps (execute_of ed env) l w).2 = session w.
Proof.
  intros Hl. apply (run_steps_preserves same_session); unfold same_session.
  - reflexivity.
  - intros w1 w2 w3. congruence.
  - reflexivity.
  - reflexivity.
  - right. exact Hl.
Qed.

(** ** POST *)

(** [streamText], step by step. *)
Lemma streamText_unfold (env : Env) (execute : ToolCall -> M Value)
    (coreMessages : list Message) (onFinish : list Message -> M unit) (w : World) :
  streamText env execute coreMessages onFinish w
  = let w1 := record (EvStreamText coreMessages) w in
    match hosted_model env coreMessages with
    | Threw e => (Threw e, w1)
    | Returned script =>
        match run_steps execute (steps script) w1 with
        | (Returned _, w2) =>
            match finish script with
            | Some responseMessages =>
                onFinish responseMessages (record (EvOnFinish responseMessages) w2)
            | None => (Returned tt, w2)
            end
        | (Threw e, w2) => (Threw e, w2)
        end
    end.
Proof.
  unfold streamText. unfold_monad. cbn.
  destruct (hosted_model env coreMessages) as [script|e]; [|reflexivity].
  destruct (run_steps execute (steps script) _) as [[[]|e] w2]; [|reflexivity].
  destruct (finish script); reflexivity.
Qed.

(** [POST] under a session, in terms of [streamText]. *)
Lemma POST_unfold (ed : Edition) (env : Env) (request : PostBody) (s : Session) (w : World) :
  session w = Some s ->
  let coreMessages := core_messages env (body_messages request) in
  POST_of ed env request w
  = match streamText env (execute_of ed env) coreMessages
            (onFinish_of ed env (body_id request) coreMessages s) (record EvAuth w) with
    | (Returned _, w') => (Returned {| status := 200; body := DataStream |}, w')
    | (Threw e, w') =>
        (match ed with
         | reverted => Threw e
         | _ => Returned (Direct.stream_failure e)
         end, w')
    end.
Proof.
  intros Hs coreMessages.
  each_edition ed;
    unfold Validated.POST, Direct.POST, Direct.POST_with, Reverted.POST, Validated.onFinish;
    unfold auth; unfold_monad; rewrite Hs; fold coreMessages;
    match goal with |- context [streamText ?a ?b ?c ?d ?e] =>
      destruct (streamText a b c d e) as [[[]|err] w'] end; reflexivity.
Qed.

(** The completion callback never throws.  With a user id in the session it
    tests, it calls [saveChat] with the core messages followed by the
    response messages; without one it calls no query. *)
Lemma onFinish_unfold (ed : Edition) (env : Env) (id : string)
    (coreMessages responseMessages : list Message) (entry : Session) (w : World) :
  let w0 := match ed with reverted => record EvAuth w | _ => w end in
  onFinish_of ed env id coreMessages entry responseMessages w
  = match session_user_id (finish_session ed entry w) with
    | Some userId =>
        (Returned tt,
         (Db.saveChat env id (coreMessages ++ responseMessages) userId w0).2)
    | None => (Returned tt, w0)
    end.
Proof.
  each_edition ed; unfold Validated.onFinish, Direct.onFinish, Reverted.onFinish;
    unfold auth; unfold_monad; cbn [fst snd session record];
    destruct (session_user_id _); try reflexivity;
    match goal with |- context [Db.saveChat ?a ?b ?c ?d ?e] =>
      destruct (Db.saveChat a b c d e) as [[[]|err] w'] end; reflexivity.
Qed.

Lemma session_user_id_None_after (w w' : World) :
  chats_untouched w w' ->
  session_user_id (session w) = None -> session_user_id (session w') = None.
Proof.
  intros (_ & [-> | ->] & _) H; [exact H | reflexivity].
Qed.

(** C10.  In every edition, a POST under a session that is there but has no
    user id is not turned away: the model is called with the core messages
    and, when that call succeeds, the answer is the data stream with status
    200; yet the chat table ends as it began and, among the calls made after
    the model was invoked, none saves or deletes a chat. *)
Theorem POST_without_user_id
    (ed : Edition) (env : Env) (request : PostBody) (s : Session) (w : World) :
  session w = Some s ->
  session_user_id (Some s) = None ->
  let coreMessages := core_messages env (body_messages request) in
  let out := POST_of ed env request w in
  chats out.2 = chats w
  /\ (exists calls,
        trace out.2 = (trace w ++ EvAuth :: EvStreamText coreMessages :: calls)%list
        /\ Forall (fun e => touches_chats e = false) calls)
  /\ (forall script, hosted_model env coreMessages = Returned script ->
      out.1 = Returned {| status := 200; body := DataStream |}).
Proof.
  intros Hs Hnoid coreMessages out.
  set (w1 := record (EvStreamText coreMessages) (record EvAuth w)).
  assert (Hw1 : session_user_id (session w1) = None) by (cbn; rewrite Hs; exact Hnoid).
  assert (Hout : chats_untouched w1 out.2
                 /\ forall script, hosted_model env coreMessages = Returned script ->
                    out.1 = Returned {| status := 200; body := DataStream |}).
  { subst out. rewrite (POST_unfold ed env request s w Hs). fold coreMessages.
    rewrite streamText_unfold. cbn zeta. fold w1.
    destruct (hosted_model env coreMessages) as [script|e].
    2: { split; [destruct ed; apply chats_untouched_refl | discriminate]. }
    destruct (run_steps_leaves_chats ed env (steps script) w1) as [Hdone Hsteps].
    destruct (run_steps (execute_of ed env) (steps script) w1) as [o w2].
    cbn in Hdone, Hsteps. subst o.
    destruct (finish script) as [responseMessages|];
      [|split; [exact Hsteps | reflexivity]].
    rewrite onFinish_unfold.
    assert (Hfin : session_user_id
                     (finish_session ed s (record (EvOnFinish responseMessages) w2))
                   = None).
    { destruct ed; cbn; try exact Hnoid.
      eapply session_user_id_None_after; eassumption. }
    rewrite Hfin. split; [|reflexivity]. cbn.
    eapply chats_untouched_trans; [exact Hsteps|].
    destruct ed; repeat first
      [ apply chats_untouched_record; reflexivity
      | eapply chats_untouched_trans; [|apply chats_untouched_record; reflexivity] ]. }
  destruct Hout as [(Hchats & _ & calls & Htrace & Hcalls) Hanswer].
  split; [exact Hchats|]. split; [|exact Hanswer].
  exists calls. split; [|exact Hcalls].
  rewrite Htrace. cbn. rewrite <- !app_assoc. reflexivity.
Qed.

Lemma POST_without_user_id_witness :
  (POST_of reverted quiet_env {| body_id := "c2"; body_messages := [hello] |}
     (world_of false (Some {| user := Some {| user_id := None |} |}))).1
  = Returned {| status := 200; body := DataStream |}.
Proof.
  destruct (POST_without_user_id reverted quiet_env
              {| body_id := "c2"; body_messages := [hello] |}
              {| user := Some {| user_id := None |} |}
              (world_of false (Some {| user := Some {| user_id := None |} |}))
              eq_refl eq_refl) as (_ & _ & streamed).
  exact (streamed _ eq_refl).
Defined.

(** C6, as stated, fails: under a session without a user id the stream runs
    to completion and nothing is stored under the chat id. *)
Lemma completed_stream_without_save :
  let w := world_of false (Some {| user := Some {| user_id := None |} |}) in
  let out := POST_of validated quiet_env
               {| body_id := "c2"; body_messages := [hello; blank] |} w in
  out.1 = Returned {| status := 200; body := DataStream |}
  /\ trace out.2 = [EvAuth; EvStreamText [hello]; EvOnFinish [reply]]
  /\ chats out.2 !! "c2" = None.
Proof. repeat split; reflexivity. Qed.

Lemma core_messages_nonempty (env : Env) (messages : list Message) :
  Forall (fun m => content_length (content m) <> 0%nat) (core_messages env messages).
Proof.
  unfold core_messages. apply List.Forall_forall. intros m Hm.
  apply List.filter_In in Hm as [_ Hm]. apply Nat.ltb_lt in Hm. lia.
Qed.

(** C6, amended.  In every edition, take a POST under a session with a user
    id whose stream runs to completion, and suppose [saveChat] does not fail
    and, for the unnamed file, which resolves the session again on
    completion, that the session has not run out meanwhile.  Then the model
    was called with the core messages, which are the converted input
    messages without those of empty content, and the chat stored under the
    chat id holds exactly these core messages followed by the response
    messages; the call that stored them, under the user id of the session,
    is the last one made. *)
Theorem POST_persists_on_completion
    (ed : Edition) (env : Env) (request : PostBody) (s : Session) (w : World)
    (script : StreamScript) (responseMessages : list Message) (userId : string) :
  let coreMessages := core_messages env (body_messages request) in
  let saved := (coreMessages ++ responseMessages)%list in
  session w = Some s ->
  session_user_id (Some s) = Some userId ->
  hosted_model env coreMessages = Returned script ->
  finish script = Some responseMessages ->
  (ed = reverted -> ~ In SessionExpires (steps script)) ->
  db_fault env QsaveChat = None ->
  let out := POST_of ed env request w in
  out.1 = Returned {| status := 200; body := DataStream |}
  /\ chat_messages <$> chats out.2 !! body_id request = Some saved
  /\ Forall (fun m => content_length (content m) <> 0%nat) coreMessages
  /\ In (EvStreamText coreMessages) (trace out.2)
  /\ exists calls, trace out.2
                   = (calls ++ [EvSaveChat (body_id request) saved userId])%list.
Proof.
  intros coreMessages saved Hs Hid Hmodel Hfinish Hexp Hdb out.
  set (w1 := record (EvStreamText coreMessages) (record EvAuth w)).
  destruct (run_steps_leaves_chats ed env (steps script) w1)
    as [Hdone (_ & _ & calls & Htrace & _)].
  assert (Hfin : session_user_id
                   (finish_session ed s (run_steps (execute_of ed env) (steps script) w1).2)
                 = Some userId).
  { destruct ed; cbn [finish_session]; try exact Hid.
    rewrite run_steps_keeps_session by auto. cbn. rewrite Hs. exact Hid. }
  subst out. rewrite (POST_unfold ed env request s w Hs). fold coreMessages.
  rewrite streamText_unfold. cbn zeta. fold w1. rewrite Hmodel.
  destruct (run_steps (execute_of ed env) (steps script) w1) as [o w2].
  cbn in Hdone, Htrace, Hfin. subst o.
  rewrite Hfinish, onFinish_unfold.
  replace (finish_session ed s (record (EvOnFinish responseMessages) w2))
    with (finish_session ed s w2) by (destruct ed; reflexivity).
  rewrite Hfin. unfold_db. rewrite Hdb. cbn.
  split; [reflexivity|].
  split; [rewrite lookup_insert_eq; reflexivity|].
  split; [apply core_messages_nonempty|].
  split.
  - destruct ed; cbn; rewrite Htrace; subst w1; cbn; rewrite <- !app_assoc;
      apply List.in_or_app; right; apply List.in_or_app; right; left; reflexivity.
  - eexists. reflexivity.
Qed.

Lemma POST_persists_on_completion_witness :
  chat_messages <$>
    chats (POST_of reverted quiet_env
             {| body_id := "c2"; body_messages := [hello; blank] |}
             (world_of false (Some (signed_in "alice")))).2 !! "c2"
  = Some [hello; reply].
Proof.
  destruct (POST_persists_on_completion reverted quiet_env
              {| body_id := "c2"; body_messages := [hello; blank] |}
              (signed_in "alice") (world_of false (Some (signed_in "alice")))
              {| steps := []; finish := Some [reply] |} [reply] "alice"
              eq_refl eq_refl eq_refl eq_refl (fun _ (H : In SessionExpires []) => H)
              eq_refl) as (_ & stored & _).
  exact stored.
Defined.

(** ** Where the session is looked at *)

(** C8, as stated, fails: with no session in force, verifyPayment reports on
    alice's reservation and displayBoardingPass hands out her boarding pass,
    and neither calls [auth]: the lookup is the only call made. *)
Lemma tools_read_without_session :
  let unpaid := world_of false None in
  let paid := world_of true None in
  verifyPayment_of direct quiet_env "r1" unpaid
  = (Returned (VObj [("hasCompletedPayment", VBool false)]),
     record (EvGetReservationById "r1") unpaid)
  /\ displayBoardingPass_of validated quiet_env forged_params paid
     = (Returned (VObj [("reservationId", VStr "r1");
                        ("passengerName", VStr "Alice Liddell");
                        ("flightNumber", VStr "BA142");
                        ("seat", VStr "12A, 12B");
                        ("departure", place_value sfo);
                        ("arrival", place_value jfk)]),
        record (EvGetReservationById "r1") paid)
  /\ Forall (fun e => is_auth e = false)
       (trace (verifyPayment_of direct quiet_env "r1" unpaid).2
        ++ trace (displayBoardingPass_of validated quiet_env forged_params paid).2).
Proof. repeat split; repeat constructor. Qed.

(** The chat-save of route.ts goes by the session of request entry: when the
    session runs out while the model streams, both documents still store
    the chat under alice, after a single call of [auth]; the unnamed file
    calls [auth] again and stores nothing. *)
Example chat_save_after_the_session_ran_out :
  let w := world_of false (Some (signed_in "alice")) in
  let request := {| body_id := "c2"; body_messages := [hello] |} in
  trace (POST_of direct expiring_env request w).2
  = [EvAuth; EvStreamText [hello]; EvOnFinish [reply];
     EvSaveChat "c2" [hello; reply] "alice"]
  /\ POST_of validated expiring_env request w = POST_of direct expiring_env request w
  /\ trace (POST_of reverted expiring_env request w).2
     = [EvAuth; EvStreamText [hello]; EvOnFinish [reply]; EvAuth]
  /\ chats (POST_of reverted expiring_env request w).2 !! "c2" = None.
Proof. repeat split; reflexivity. Qed.

Lemma worldless_ret {A} (a : A) : worldless (mret a).
Proof. exists (Returned a). reflexivity. Qed.

Lemma worldless_lift {A} (o : Outcome A) : worldless (lift o).
Proof. exists o. reflexivity. Qed.

Lemma worldless_bind {A B} (m : M A) (k : A -> M B) :
  worldless m -> (forall a, worldless (k a)) -> worldless (m ≫= k).
Proof.
  intros [[a|e] Hm] Hk; unfold_monad.
  - destruct (Hk a) as [o Ho]. exists o. intros w. rewrite Hm. apply Ho.
  - exists (Threw e). intros w. rewrite Hm. reflexivity.
Qed.

Ltac worldless :=
  repeat first [ apply worldless_ret | apply worldless_lift
               | apply worldless_bind; [|intros ?] ].

Lemma direct_boardingPassData_worldless (r : Reservation) :
  worldless (Direct.boardingPassData r).
Proof. unfold Direct.boardingPassData. worldless. Qed.

Lemma validated_boardingPassData_worldless (r : Reservation) (d : Value) :
  worldless (Validated.boardingPassData r d).
Proof. unfold Validated.boardingPassData. worldless. Qed.

(** C8, amended.  In every edition:
    - createReservation resolves the session at the point of its own call:
      unless the pricing function throws, [auth] is the first call it makes,
      and an insert follows only under the user id of that session;
    - verifyPayment and displayBoardingPass make one call, the lookup of the
      reservation, and answer the same whatever the session is.
    In the unnamed file the completion callback begins by resolving the
    session again. *)
Theorem where_the_session_is_resolved (ed : Edition) (env : Env) (w : World) :
  (forall props,
      let after := (createReservation_of ed env props w).2 in
      after = w
      \/ after = record EvAuth w
      \/ exists id userId d,
           session_user_id (session w) = Some userId
           /\ trace after = (trace w ++ [EvAuth; EvCreateReservation id userId d])%list)
  /\ (forall reservationId s,
        (verifyPayment_of ed env reservationId w).2
        = record (EvGetReservationById reservationId) w
        /\ (verifyPayment_of ed env reservationId (with_session s w)).1
           = (verifyPayment_of ed env reservationId w).1)
  /\ (forall params s,
        (displayBoardingPass_of ed env params w).2
        = record (EvGetReservationById (bp_reservationId params)) w
        /\ (displayBoardingPass_of ed env params (with_session s w)).1
           = (displayBoardingPass_of ed env params w).1)
  /\ (forall id coreMessages responseMessages,
        exists calls,
          trace (Reverted.onFinish env id coreMessages responseMessages w).2
          = (trace w ++ EvAuth :: calls)%list).
Proof.
  split; [|split; [|split]].
  - intros props.
    each_edition ed; unfold_createReservation; unfold_db; unfold_monad;
      (destruct (generateReservationPrice env props) as [price|err];
       [|left; reflexivity]); cbn;
      (destruct (session_user_id (session w)) as [userId|];
       [|right; left; reflexivity]); cbn;
      right; right; eexists _, userId, _;
      (split; [reflexivity|]);
      destruct (db_fault env QcreateReservation); cbn;
      rewrite <- app_assoc; reflexivity.
  - intros reservationId s.
    each_edition ed; unfold Direct.verifyPayment_execute, Reverted.verifyPayment_execute;
      unfold_db; unfold_monad; cbn;
      destruct (db_fault env QgetReservationById); cbn;
      try (split; reflexivity);
      destruct (reservations w !! reservationId); split; reflexivity.
  - intros params s.
    each_edition ed;
      unfold Validated.displayBoardingPass_execute, Direct.displayBoardingPass_execute,
        Reverted.displayBoardingPass_execute;
      unfold_db; unfold_monad; cbn [fst snd reservations with_session record];
      destruct (db_fault env QgetReservationById); cbn [fst snd];
      try (split; reflexivity);
      (destruct (reservations w !! bp_reservationId params) as [r|];
       [|split; reflexivity]);
      (destruct (hasCompletedPayment r); cbn [negb]; [|split; reflexivity]).
    + destruct (safeParse Validated.ReservationDetailsSchema (details r)) as [d|];
        [|split; reflexivity].
      destruct (validated_boardingPassData_worldless r d) as [o Ho].
      rewrite !Ho. destruct o; split; reflexivity.
    + destruct (direct_boardingPassData_worldless r) as [o Ho].
      rewrite !Ho. destruct o; split; reflexivity.
    + split; reflexivity.
  - intros id coreMessages responseMessages.
    unfold Reverted.onFinish. unfold_db. unfold_monad. cbn.
    destruct (session_user_id (session w)) as [userId|]; cbn;
      [destruct (db_fault env QsaveChat); cbn; rewrite <- app_assoc|];
      eexists; reflexivity.
Qed.

(** * Further properties of the route *)

(** ** DELETE, the remaining answers *)

(** In every edition, a signed-in user who deletes a chat of their own is
    answered 200; the chat is gone, every other chat and the reservation
    table are as they were, and the calls are [auth], the lookup and the
    delete, in this order. *)
Theorem DELETE_own_chat
    (ed : Edition) (env : Env) (id caller : string) (c : Chat) (w : World) :
  id <> "" -> caller <> "" ->
  session w = Some (signed_in caller) ->
  db_fault env QgetChatById = None ->
  db_fault env QdeleteChatById = None ->
  chats w !! id = Some c ->
  chat_userId c = caller ->
  let out := DELETE_of ed env (Some id) w in
  (exists b, out.1 = Returned {| status := 200; body := b |})
  /\ chats out.2 = delete id (chats w)
  /\ reservations out.2 = reservations w
  /\ trace out.2 = (trace w ++ [EvAuth; EvGetChatById id; EvDeleteChatById id])%list.
Proof.
  intros Hid Hcaller Hs Hget Hdel Hc Howner.
  apply String.eqb_neq in Hid, Hcaller.
  each_edition ed; unfold_DELETE; unfold_db; unfold_monad; cbn;
    rewrite Hid, Hs; cbn; rewrite ?Hcaller, Hget; cbn; rewrite Hc; cbn;
    rewrite Howner, ?String.eqb_refl, ?bool_decide_eq_true_2 by reflexivity; cbn;
    rewrite Hdel; cbn; rewrite <- !app_assoc;
    (split; [eexists; reflexivity|]); repeat split; reflexivity.
Qed.

Lemma DELETE_own_chat_witness :
  chats (DELETE_of reverted quiet_env (Some "c1")
           (world_of false (Some (signed_in "alice")))).2
  = delete "c1" (chats (world_of false (Some (signed_in "alice")))).
Proof.
  pose proof (DELETE_own_chat reverted quiet_env "c1" "alice" alice_chat
                (world_of false (Some (signed_in "alice")))
                ltac:(discriminate) ltac:(discriminate)
                eq_refl eq_refl eq_refl eq_refl eq_refl) as (_ & gone & _).
  exact gone.
Defined.

(** In every edition, a signed-in user who asks to delete a chat that is not
    stored is answered 404; nothing is deleted, the only calls are [auth]
    and the lookup. *)
Theorem DELETE_unknown_chat
    (ed : Edition) (env : Env) (id caller : string) (w : World) :
  id <> "" -> caller <> "" ->
  session w = Some (signed_in caller) ->
  db_fault env QgetChatById = None ->
  chats w !! id = None ->
  exists b, DELETE_of ed env (Some id) w
            = (Returned {| status := 404; body := b |},
               record (EvGetChatById id) (record EvAuth w)).
Proof.
  intros Hid Hcaller Hs Hget Hc.
  apply String.eqb_neq in Hid, Hcaller.
  each_edition ed; unfold_DELETE; unfold_db; unfold_monad; cbn;
    rewrite Hid, Hs; cbn; rewrite ?Hcaller, Hget; cbn; rewrite Hc; cbn;
    eexists; reflexivity.
Qed.

Lemma DELETE_unknown_chat_witness :
  exists b, DELETE_of direct quiet_env (Some "c9") (world_of false (Some (signed_in "bob")))
            = (Returned {| status := 404; body := b |},
               record (EvGetChatById "c9")
                 (record EvAuth (world_of false (Some (signed_in "bob"))))).
Proof.
  exact (DELETE_unknown_chat direct quiet_env "c9" "bob"
           (world_of false (Some (signed_in "bob")))
           ltac:(discriminate) ltac:(discriminate) eq_refl eq_refl eq_refl).
Defined.

(** In every edition, when the lookup of the chat fails, or the delete of a
    chat the caller owns fails, the handler does not throw: it answers 500,
    and the chat table is as it was. *)
Theorem DELETE_database_failure
    (ed : Edition) (env : Env) (id caller : string) (w : World) :
  id <> "" -> caller <> "" ->
  session w = Some (signed_in caller) ->
  (db_fault env QgetChatById <> None
   \/ (exists c, chats w !! id = Some c /\ chat_userId c = caller)
      /\ db_fault env QdeleteChatById <> None) ->
  let out := DELETE_of ed env (Some id) w in
  (exists b, out.1 = Returned {| status := 500; body := b |})
  /\ chats out.2 = chats w.
Proof.
  intros Hid Hcaller Hs Hfail.
  apply String.eqb_neq in Hid, Hcaller.
  each_edition ed; unfold_DELETE; unfold_db; unfold_monad; cbn;
    rewrite Hid, Hs; cbn; rewrite ?Hcaller;
    (destruct (db_fault env QgetChatById) as [err|]; cbn;
     [split; [eexists; reflexivity | reflexivity]|]);
    (destruct Hfail as [Hfail | [(c & Hc & Howner) Hfail]]; [congruence|]);
    rewrite Hc; cbn;
    rewrite Howner, ?String.eqb_refl, ?bool_decide_eq_true_2 by reflexivity; cbn;
    (destruct (db_fault env QdeleteChatById) as [err|]; [|congruence]); cbn;
    (split; [eexists; reflexivity | reflexivity]).
Qed.

Lemma DELETE_database_failure_witness :
  exists b, (DELETE_of validated offline_env (Some "c1")
               (world_of false (Some (signed_in "alice")))).1
            = Returned {| status := 500; body := b |}.
Proof.
  pose proof (DELETE_database_failure validated offline_env "c1" "alice"
                (world_of false (Some (signed_in "alice")))
                ltac:(discriminate) ltac:(discriminate) eq_refl
                ltac:(left; discriminate)) as [answer _].
  exact answer.
Defined.

Ltac answered := eexists; split; [reflexivity | cbn; tauto].

Ltac unchanged_answer :=
  split; [answered
         | split; [reflexivity
                  | split; [first [reflexivity | assumption] | left; reflexivity]]].

(** In every edition and for every request, DELETE answers, with one of six
    statuses, and never throws.  It leaves the reservation table and the
    session alone, and the chat table either is as it was or has lost
    exactly the chat named by the id, which then belonged to the user of the
    session. *)
Theorem DELETE_answers_and_frame
    (ed : Edition) (env : Env) (id : option string) (w : World) :
  let out := DELETE_of ed env id w in
  (exists r, out.1 = Returned r /\ In (status r) [200; 400; 401; 403; 404; 500])
  /\ reservations out.2 = reservations w
  /\ session out.2 = session w
  /\ (chats out.2 = chats w
      \/ exists i c u,
           id = Some i /\ chats w !! i = Some c
           /\ session w = Some {| user := Some u |}
           /\ user_id u = Some (chat_userId c)
           /\ chats out.2 = delete i (chats w)).
Proof.
  destruct id as [i|];
    [|each_edition ed; unfold_DELETE; cbn; unchanged_answer].
  each_edition ed; unfold_DELETE; unfold_db; unfold_monad; cbn;
    (destruct (String.eqb i "") eqn:Hi; cbn; [unchanged_answer|]);
    (destruct (session w) as [[[[[uid|]]|]]|] eqn:Hs; cbn; try unchanged_answer);
    try (match goal with
         | |- context [String.eqb ?u ""] =>
             destruct (String.eqb u "") eqn:Huid
         end; cbn; [unchanged_answer|]);
    (destruct (db_fault env QgetChatById); cbn; [unchanged_answer|]);
    (destruct (chats w !! i) as [c|] eqn:Hc; cbn; [|unchanged_answer]).
  1-2: destruct (String.eqb (chat_userId c) uid) eqn:Howner; cbn; [|unchanged_answer];
    (destruct (db_fault env QdeleteChatById); cbn; [unchanged_answer|]);
    apply String.eqb_eq in Howner;
    (split; [answered | split; [reflexivity | split; [assumption|]]]);
    right; exists i, c, {| user_id := Some uid |}; cbn; rewrite Howner; auto.
  all: destruct (bool_decide (Some (chat_userId c) = _)) eqn:Howner;
    cbn; [|unchanged_answer];
    (destruct (db_fault env QdeleteChatById); cbn; [unchanged_answer|]);
    apply bool_decide_eq_true_1 in Howner;
    (split; [answered | split; [reflexivity | split; [assumption|]]]);
    right; eexists i, c, _; cbn; eauto.
Qed.


(** ** POST, the remaining paths *)

Lemma stream_failure_status (e : Thrown) :
  (exists msg, body (Direct.stream_failure e) = JsonBody (error_payload msg))
  /\ In (status (Direct.stream_failure e)) [400; 403; 500].
Proof.
  unfold Direct.stream_failure. destruct e as [message|]; cbn.
  - destruct (includes message "permission denied" || includes message "API key"
              || includes message "quota"); cbn; [split; [eauto | tauto]|].
    destruct (includes message "model" && includes message "not found"); cbn;
      (split; [eauto | tauto]).
  - split; [eauto | tauto].
Qed.

(** When the call of the hosted model fails under a session, nothing is
    stored and the only calls are [auth] and the model call.  Both documents
    of route.ts catch the failure and answer a JSON error payload with
    status 400, 403 or 500; a message that speaks of a quota, an API key or
    a denied permission gives 403 even when it also names a model that is
    not found.  In the unnamed file the exception leaves the handler. *)
Theorem POST_model_failure
    (ed : Edition) (env : Env) (request : PostBody) (s : Session) (w : World)
    (e : Thrown) :
  let coreMessages := core_messages env (body_messages request) in
  session w = Some s ->
  hosted_model env coreMessages = Threw e ->
  let out := POST_of ed env request w in
  out.2 = record (EvStreamText coreMessages) (record EvAuth w)
  /\ match ed with
     | reverted => out.1 = Threw e
     | _ =>
         exists r msg,
           out.1 = Returned r /\ body r = JsonBody (error_payload msg)
           /\ In (status r) [400; 403; 500]
           /\ (forall message,
                 e = JsError message ->
                 includes message "permission denied" || includes message "API key"
                 || includes message "quota" = true ->
                 status r = 403)
     end.
Proof.
  intros coreMessages Hs Hmodel out. subst out.
  rewrite (POST_unfold ed env request s w Hs). fold coreMessages.
  rewrite streamText_unfold. cbn zeta. rewrite Hmodel.
  split; [reflexivity|].
  destruct (stream_failure_status e) as [[msg Hbody] Hstatus].
  destruct ed; cbn [fst]; try reflexivity;
    (exists (Direct.stream_failure e), msg;
     split; [reflexivity|]; split; [exact Hbody|]; split; [exact Hstatus|];
     intros message -> Hincl; unfold Direct.stream_failure; rewrite Hincl; reflexivity).
Qed.

Lemma POST_model_failure_witness :
  exists b,
    (POST_of direct throttled_env {| body_id := "c2"; body_messages := [hello] |}
       (world_of false (Some (signed_in "alice")))).1
    = Returned {| status := 403; body := b |}.
Proof.
  pose proof (POST_model_failure direct throttled_env
                {| body_id := "c2"; body_messages := [hello] |}
                (signed_in "alice") (world_of false (Some (signed_in "alice")))
                (JsError "quota exceeded: model not found") eq_refl eq_refl)
    as (_ & r & msg & answer & _ & _ & quota).
  rewrite answer. destruct r as [code b]. exists b.
  cbn in quota. rewrite (quota _ eq_refl eq_refl). reflexivity.
Defined.

(** In every edition, a [saveChat] that fails when the stream has completed
    does not reach the caller: the answer is still the data stream with
    status 200, the handler does not throw, and the chat table is as it
    was. *)
Theorem POST_swallows_save_failure
    (ed : Edition) (env : Env) (request : PostBody) (s : Session) (w : World)
    (script : StreamScript) :
  session w = Some s ->
  hosted_model env (core_messages env (body_messages request)) = Returned script ->
  db_fault env QsaveChat <> None ->
  let out := POST_of ed env request w in
  out.1 = Returned {| status := 200; body := DataStream |}
  /\ chats out.2 = chats w.
Proof.
  intros Hs Hmodel Hdb out. subst out.
  rewrite (POST_unfold ed env request s w Hs).
  rewrite streamText_unfold. cbn zeta. rewrite Hmodel.
  set (w1 := record (EvStreamText _) (record EvAuth w)).
  destruct (run_steps_leaves_chats ed env (steps script) w1) as [Hdone (Hchats & _)].
  destruct (run_steps (execute_of ed env) (steps script) w1) as [o w2].
  cbn in Hdone, Hchats. subst o.
  destruct (finish script) as [responseMessages|]; [|split; [reflexivity | exact Hchats]].
  rewrite onFinish_unfold.
  destruct (session_user_id _) as [userId|].
  - unfold_db. destruct (db_fault env QsaveChat) as [err|]; [|congruence].
    split; [reflexivity|]. destruct ed; exact Hchats.
  - split; [reflexivity|]. destruct ed; exact Hchats.
Qed.

Lemma POST_swallows_save_failure_witness :
  chats (POST_of reverted offline_env {| body_id := "c2"; body_messages := [hello] |}
           (world_of false (Some (signed_in "alice")))).2
  = chats (world_of false (Some (signed_in "alice"))).
Proof.
  pose proof (POST_swallows_save_failure reverted offline_env
                {| body_id := "c2"; body_messages := [hello] |}
                (signed_in "alice") (world_of false (Some (signed_in "alice")))
                {| steps := []; finish := Some [reply] |}
                eq_refl eq_refl ltac:(discriminate)) as [_ kept].
  exact kept.
Defined.

(** In every edition and for every request, whatever the model and the
    database do: among the calls a POST makes there is no delete of a chat,
    and every save of a chat is for the chat id of the request, under the
    user id of the session in force when the request came in, and stores
    the core messages followed by further messages. *)
Theorem POST_chat_writes
    (ed : Edition) (env : Env) (request : PostBody) (w : World) :
  let coreMessages := core_messages env (body_messages request) in
  exists calls,
    trace (POST_of ed env request w).2 = (trace w ++ calls)%list
    /\ Forall (allowed_write (body_id request) coreMessages (session w)) calls.
Proof.
  intros coreMessages.
  assert (Hfree : forall calls, Forall (fun e => touches_chats e = false) calls ->
            Forall (allowed_write (body_id request) coreMessages (session w)) calls).
  { intros calls H. eapply Forall_impl; [exact H|].
    intros [] He; try discriminate He; exact I. }
  destruct (session w) as [s|] eqn:Hs.
  2: { exists [EvAuth].
       each_edition ed;
         unfold Validated.POST, Direct.POST, Direct.POST_with, Reverted.POST;
         unfold auth; unfold_monad; rewrite Hs;
         (split; [reflexivity | repeat constructor]). }
  rewrite (POST_unfold ed env request s w Hs). fold coreMessages.
  rewrite streamText_unfold. cbn zeta.
  set (w1 := record (EvStreamText coreMessages) (record EvAuth w)).
  assert (Hw1 : trace w1 = (trace w ++ [EvAuth; EvStreamText coreMessages])%list)
    by (subst w1; cbn; rewrite <- app_assoc; reflexivity).
  destruct (hosted_model env coreMessages) as [script|e].
  2: { eexists. split; [destruct ed; exact Hw1 | repeat constructor]. }
  destruct (run_steps_leaves_chats ed env (steps script) w1)
    as [Hdone (_ & Hsession & calls & Htrace & Hcalls)].
  destruct (run_steps (execute_of ed env) (steps script) w1) as [o w2].
  cbn [fst snd] in Hdone, Hsession, Htrace. subst o. rewrite Hw1 in Htrace.
  apply Hfree in Hcalls.
  destruct (finish script) as [responseMessages|].
  2: { exists ([EvAuth; EvStreamText coreMessages] ++ calls)%list. split.
       - cbn [snd]. rewrite Htrace, <- app_assoc. reflexivity.
       - apply Forall_app. split; [repeat constructor | exact Hcalls]. }
  rewrite onFinish_unfold.
  destruct (session_user_id (finish_session ed s _)) as [userId|] eqn:Hfin.
  - assert (Hentry : session_user_id (Some s) = Some userId).
    { destruct ed; cbn in Hfin; try exact Hfin.
      destruct Hsession as [Hsession|Hsession]; rewrite Hsession in Hfin;
        [subst w1; cbn in Hfin; rewrite Hs in Hfin; exact Hfin | discriminate]. }
    exists ([EvAuth; EvStreamText coreMessages] ++ calls
            ++ EvOnFinish responseMessages
               :: match ed with reverted => [EvAuth] | _ => [] end
            ++ [EvSaveChat (body_id request) (coreMessages ++ responseMessages) userId])%list.
    split.
    + unfold_db. destruct (db_fault env QsaveChat); destruct ed; cbn;
        rewrite Htrace, <- !app_assoc; reflexivity.
    + apply Forall_app. split; [repeat constructor|].
      apply Forall_app. split; [exact Hcalls|].
      constructor; [exact I|]. apply Forall_app. split.
      * destruct ed; repeat constructor.
      * repeat constructor; eauto.
  - exists ([EvAuth; EvStreamText coreMessages] ++ calls
            ++ EvOnFinish responseMessages
               :: match ed with reverted => [EvAuth] | _ => [] end)%list.
    split.
    + destruct ed; cbn; rewrite Htrace, <- !app_assoc; reflexivity.
    + apply Forall_app. split; [repeat constructor|].
      apply Forall_app. split; [exact Hcalls|].
      destruct ed; repeat constructor.
Qed.

(** ** Tools, the remaining behaviour *)

(** When the pricing function throws, or the insert fails under a session
    with a user id, no reservation is stored in any edition.  The unnamed
    file catches the failure and answers the error payload "Failed to create
    reservation."; in both documents of route.ts the exception leaves
    [execute]. *)
Theorem createReservation_failure
    (ed : Edition) (env : Env) (props : ReservationProps) (w : World) (e : Thrown) :
  (generateReservationPrice env props = Threw e
   \/ (exists price userId,
         generateReservationPrice env props = Returned price
         /\ session_user_id (session w) = Some userId)
      /\ db_fault env QcreateReservation = Some e) ->
  let out := createReservation_of ed env props w in
  reservations out.2 = reservations w
  /\ match ed with
     | reverted => out.1 = Returned (error_payload "Failed to create reservation.")
     | _ => out.1 = Threw e
     end.
Proof.
  intros [Hprice | [(price & userId & Hprice & Hs) Hdb]];
    each_edition ed; unfold_createReservation; unfold_db; unfold_monad;
    rewrite Hprice; cbn; rewrite ?Hs, ?Hdb; cbn; split; reflexivity.
Qed.

Lemma createReservation_failure_witness :
  (createReservation_of reverted offline_env alice_trip
     (world_of false (Some (signed_in "alice")))).1
  = Returned (error_payload "Failed to create reservation.").
Proof.
  pose proof (createReservation_failure reverted offline_env alice_trip
                (world_of false (Some (signed_in "alice")))
                (JsError "connection refused")
                (or_intror (conj (ex_intro _ 420 (ex_intro _ "alice" (conj eq_refl eq_refl)))
                                 eq_refl))) as [_ answer].
  exact answer.
Defined.

Lemma parse_string_items (names : list string) :
  mapM (safeParse string_) (map VStr names) = Some (map VStr names).
Proof.
  apply mapM_Some. induction names as [|name names IH]; constructor; auto.
Qed.

Lemma full_details_parse (props : ReservationProps) (price : Z) :
  safeParse Validated.ReservationDetailsSchema (reservation_details props price)
  = Some (reservation_details props price).
Proof.
  pose proof (parse_string_items (seats props)) as Hseats.
  unfold Validated.ReservationDetailsSchema, reservation_details, props_fields.
  cbn in *. rewrite Hseats. reflexivity.
Qed.

(** The second document of route.ts and the unnamed file spell out the
    shapes of departure and arrival in the parameters of createReservation.
    What their createReservation stores, under a session with a user id
    when pricing and insert succeed, is a record under a new id whose
    details pass the [ReservationDetailsSchema] of the first document and
    come out of the validation as they went in.  The first document, which
    elides the two shapes in its own parameter schema, is left out. *)
Theorem stored_details_validate
    (ed : Edition) (env : Env) (props : ReservationProps) (w : World)
    (userId : string) (price : Z) :
  ed <> validated ->
  session_user_id (session w) = Some userId ->
  generateReservationPrice env props = Returned price ->
  db_fault env QcreateReservation = None ->
  let after := (createReservation_of ed env props w).2 in
  exists id r,
    reservations w !! id = None
    /\ reservations after !! id = Some r
    /\ reservation_userId r = userId
    /\ safeParse Validated.ReservationDetailsSchema (details r) = Some (details r).
Proof.
  intros Hed Hs Hprice Hdb.
  exists (fresh (dom (reservations w))).
  destruct ed; [destruct (Hed eq_refl) | |];
    cbn [createReservation_of execute_of Direct.execute Reverted.execute];
    unfold_createReservation; unfold_db; unfold_monad;
    rewrite Hprice; cbn; rewrite Hs, Hdb; cbn;
    (eexists; split; [apply not_elem_of_dom, is_fresh|]);
    (split; [apply lookup_insert_eq|]);
    (split; [reflexivity | exact (full_details_parse props price)]).
Qed.

Lemma stored_details_validate_witness :
  exists id r,
    reservations (createReservation_of direct quiet_env alice_trip
                    (world_of false (Some (signed_in "alice")))).2 !! id = Some r
    /\ safeParse Validated.ReservationDetailsSchema (details r) = Some (details r).
Proof.
  destruct (stored_details_validate direct quiet_env alice_trip
              (world_of false (Some (signed_in "alice"))) "alice" 420
              ltac:(discriminate) eq_refl eq_refl eq_refl)
    as (id & r & _ & stored & _ & valid).
  exists id, r. split; [exact stored | exact valid].
Defined.

(** A paid reservation whose details are those createReservation stores gets
    the same boarding pass from both documents of route.ts, whatever the
    model sends beside the id: the stored id, passenger, flight and places,
    and the stored seats joined by a comma and a space. *)
Theorem boarding_pass_of_stored_reservation
    (env : Env) (params : BoardingPassParams) (w : World) (r : Reservation)
    (props : ReservationProps) (price : Z) :
  db_fault env QgetReservationById = None ->
  reservations w !! bp_reservationId params = Some r ->
  hasCompletedPayment r = true ->
  details r = reservation_details props price ->
  (displayBoardingPass_of validated env params w).1
  = Returned (boarding_pass_of (reservation_id r) props)
  /\ (displayBoardingPass_of direct env params w).1
     = Returned (boarding_pass_of (reservation_id r) props).
Proof.
  intros Hdb Hr Hpaid Hdetails.
  assert (Hvalid : safeParse Validated.ReservationDetailsSchema
                     (reservation_details props price)
                   = Some (reservation_details props price)).
  { pose proof (parse_string_items (seats props)) as Hseats.
    unfold Validated.ReservationDetailsSchema, reservation_details, props_fields.
    cbn in *. rewrite Hseats. reflexivity. }
  cbn [displayBoardingPass_of execute_of Validated.execute Direct.execute].
  unfold Validated.displayBoardingPass_execute, Direct.displayBoardingPass_execute,
    Validated.boardingPassData, Direct.boardingPassData.
  unfold_db. unfold_monad. rewrite Hdb. cbn [fst snd reservations record].
  rewrite Hr, Hpaid, Hdetails, Hvalid. cbn.
  rewrite map_map, map_id. split; reflexivity.
Qed.

Lemma boarding_pass_of_stored_reservation_witness :
  (displayBoardingPass_of validated quiet_env forged_params (world_of true None)).1
  = Returned (boarding_pass_of "r1" alice_trip).
Proof.
  pose proof (boarding_pass_of_stored_reservation quiet_env forged_params
                (world_of true None) (alice_reservation true) alice_trip 420
                eq_refl eq_refl eq_refl eq_refl) as [pass _].
  exact pass.
Defined.


Lemma verifyPayment_unfold (ed : Edition) (env : Env) (reservationId : string) (w : World) :
  verifyPayment_of ed env reservationId w
  = (Returned
       match db_fault env QgetReservationById with
       | Some _ => error_payload "Could not verify payment status."
       | None =>
           match reservations w !! reservationId with
           | Some r => VObj [("hasCompletedPayment", VBool (hasCompletedPayment r))]
           | None => error_payload ("Reservation " ++ reservationId ++ " not found.")
           end
       end,
     record (EvGetReservationById reservationId) w).
Proof.
  each_edition ed; unfold Direct.verifyPayment_execute, Reverted.verifyPayment_execute;
    unfold_db; unfold_monad; cbn;
    destruct (db_fault env QgetReservationById); cbn; try reflexivity;
    destruct (reservations w !! reservationId); reflexivity.
Qed.

(** In every edition verifyPayment never throws and leaves both tables and
    the session alone.  It answers [{ hasCompletedPayment: b }] exactly when the lookup
    succeeds and the stored reservation has flag [b]; in every other case,
    a reservation that is not stored or a lookup that fails, it answers an
    error payload. *)
Theorem verifyPayment_reports_the_stored_flag
    (ed : Edition) (env : Env) (reservationId : string) (w : World) :
  let out := verifyPayment_of ed env reservationId w in
  exists v,
    out.1 = Returned v
    /\ (forall b, v = VObj [("hasCompletedPayment", VBool b)]
                  <-> db_fault env QgetReservationById = None
                      /\ payment_flag w reservationId = Some b)
    /\ (is_error_payload v = true
        <-> db_fault env QgetReservationById <> None
            \/ reservations w !! reservationId = None)
    /\ chats out.2 = chats w /\ reservations out.2 = reservations w
    /\ session out.2 = session w.
Proof.
  cbn zeta. rewrite verifyPayment_unfold. unfold payment_flag.
  eexists. split; [reflexivity|].
  destruct (db_fault env QgetReservationById) as [err|].
  - split; [|split; [|repeat split]].
    + intros b. split; [discriminate | intros [H _]; discriminate H].
    + split; [left; discriminate | reflexivity].
  - destruct (reservations w !! reservationId) as [r|]; cbn.
    + split; [|split; [|repeat split]].
      * intros b. split; [intros [= <-]; auto | intros [_ [= <-]]; reflexivity].
      * split; [discriminate | intros [H|H]; [congruence | discriminate H]].
    + split; [|split; [|repeat split]].
      * intros b. split; [discriminate | intros [_ H]; discriminate H].
      * split; [right; reflexivity | reflexivity].
Qed.

Lemma displayBoardingPass_world
    (ed : Edition) (env : Env) (params : BoardingPassParams) (w : World) :
  (exists v, (displayBoardingPass_of ed env params w).1 = Returned v)
  /\ (displayBoardingPass_of ed env params w).2
     = record (EvGetReservationById (bp_reservationId params)) w.
Proof.
  each_edition ed;
    unfold Validated.displayBoardingPass_execute, Direct.displayBoardingPass_execute,
      Reverted.displayBoardingPass_execute;
    unfold_db; unfold_monad; cbn [fst snd reservations record];
    (destruct (db_fault env QgetReservationById); cbn [fst snd];
     [split; [eexists; reflexivity | reflexivity]|]);
    (destruct (reservations w !! bp_reservationId params) as [r|];
     [|split; [eexists; reflexivity | reflexivity]]);
    (destruct (hasCompletedPayment r); cbn [negb];
     [|split; [eexists; reflexivity | reflexivity]]).
  - destruct (safeParse Validated.ReservationDetailsSchema (details r)) as [d|];
      [|split; [eexists; reflexivity | reflexivity]].
    destruct (validated_boardingPassData_worldless r d) as [o Ho].
    rewrite !Ho. destruct o; (split; [eexists; reflexivity | reflexivity]).
  - destruct (direct_boardingPassData_worldless r) as [o Ho].
    rewrite !Ho. destruct o; (split; [eexists; reflexivity | reflexivity]).
  - split; [eexists; reflexivity | reflexivity].
Qed.

(** In every edition displayBoardingPass answers and never throws, whatever
    is stored under the id, malformed details included, and whatever the
    lookup does; both tables and the session are as they were. *)
Theorem displayBoardingPass_never_throws
    (ed : Edition) (env : Env) (params : BoardingPassParams) (w : World) :
  let out := displayBoardingPass_of ed env params w in
  (exists v, out.1 = Returned v)
  /\ chats out.2 = chats w /\ reservations out.2 = reservations w
  /\ session out.2 = session w.
Proof.
  destruct (displayBoardingPass_world ed env params w) as [Hv Hw].
  cbn zeta. rewrite Hw. split; [exact Hv | repeat split].
Qed.

(** The first document of route.ts, in every state of the store: the answer
    is an error payload, or else the reservation is stored and paid, its
    details pass the schema, and the answer is the boarding pass made of the
    stored id and the stored passenger, flight, seats and places, all of the
    types the schema asks for. *)
Theorem validated_boarding_pass_is_checked
    (env : Env) (reservationId : string) (w : World) :
  exists v,
    (Validated.displayBoardingPass_execute env reservationId w).1 = Returned v
    /\ (is_error_payload v = true
        \/ exists r name flight names from to,
             reservations w !! reservationId = Some r
             /\ hasCompletedPayment r = true
             /\ prop (details r) "passengerName" = Returned (VStr name)
             /\ prop (details r) "flightNumber" = Returned (VStr flight)
             /\ prop (details r) "seats" = Returned (VArr (map VStr names))
             /\ (exists stored, prop (details r) "departure" = Returned stored
                                /\ safeParse Validated.place_schema stored = Some from)
             /\ (exists stored, prop (details r) "arrival" = Returned stored
                                /\ safeParse Validated.place_schema stored = Some to)
             /\ v = VObj [("reservationId", VStr (reservation_id r));
                          ("passengerName", VStr name);
                          ("flightNumber", VStr flight);
                          ("seat", VStr (join_strings ", " names));
                          ("departure", from);
                          ("arrival", to)]).
Proof.
  destruct (db_fault env QgetReservationById) as [err|] eqn:Hdb.
  { eexists. unfold Validated.displayBoardingPass_execute. unfold_db. unfold_monad.
    rewrite Hdb. cbn. split; [reflexivity | left; reflexivity]. }
  destruct (reservations w !! reservationId) as [r|] eqn:Hr.
  2: { eexists. unfold Validated.displayBoardingPass_execute. unfold_db. unfold_monad.
       rewrite Hdb. cbn. rewrite Hr. split; [reflexivity | left; reflexivity]. }
  destruct (hasCompletedPayment r) eqn:Hpaid.
  2: { eexists. unfold Validated.displayBoardingPass_execute. unfold_db. unfold_monad.
       rewrite Hdb. cbn. rewrite Hr. cbn. rewrite Hpaid.
       split; [reflexivity | left; reflexivity]. }
  pose proof (validated_boarding_pass_from_store env reservationId w r Hdb Hr Hpaid)
    as Hpass. cbn zeta in Hpass.
  destruct (safeParse Validated.ReservationDetailsSchema (details r)) as [d|].
  - destruct Hpass as (name & flight & names & from & to & H1 & H2 & H3 & H4 & H5 & Hv).
    eexists. split; [exact Hv|]. right.
    exists r, name, flight, names, from, to. auto 10.
  - eexists. split; [exact Hpass | left; reflexivity].
Qed.

Lemma store_free_worldless (ed : Edition) (env : Env) (call : ToolCall) :
  store_free call = true -> worldless (execute_of ed env call).
Proof.
  intros Hfree.
  each_edition ed; destruct call; try discriminate Hfree; cbn;
    unfold Direct.getWeather_execute, Direct.displayFlightStatus_execute,
      Direct.searchFlights_execute, Direct.selectSeats_execute,
      Direct.authorizePayment_execute, Reverted.getWeather_execute,
      Reverted.authorizePayment_execute;
    repeat first [ apply worldless_ret | apply worldless_lift
                 | apply worldless_bind; [|intros ?]
                 | match goal with
                   | |- worldless (if ?b then _ else _) => destruct b
                   end ].
Qed.

(** In every edition the tools that concern no reservation (getWeather,
    displayFlightStatus, searchFlights, selectSeats, authorizePayment)
    neither read nor change the world: they call neither [auth] nor a
    query, and what they answer or throw is the same in every world.  In
    particular authorizePayment answers for an id under which nothing is
    stored just as for a stored one. *)
Theorem store_free_tools_ignore_the_world
    (ed : Edition) (env : Env) (call : ToolCall) (w w' : World) :
  store_free call = true ->
  (execute_of ed env call w).2 = w
  /\ (execute_of ed env call w').1 = (execute_of ed env call w).1.
Proof.
  intros Hfree. destruct (store_free_worldless ed env call Hfree) as [o Ho].
  rewrite !Ho. split; reflexivity.
Qed.

Lemma store_free_tools_ignore_the_world_witness :
  (execute_of validated quiet_env (CallAuthorizePayment "r9") (world_of false None)).2
  = world_of false None.
Proof.
  exact (proj1 (store_free_tools_ignore_the_world validated quiet_env
                  (CallAuthorizePayment "r9") (world_of false None)
                  (world_of true None) eq_refl)).
Defined.

(** In every edition getWeather turns a response that is not ok into an
    error payload instead of throwing, and hands on the body of a response
    that is ok; route.ts puts the status text into the message, the unnamed
    file does not. *)
Theorem getWeather_on_response
    (ed : Edition) (env : Env) (latitude longitude : Z) (response : FetchResponse)
    (w : World) :
  fetch env latitude longitude = Returned response ->
  execute_of ed env (CallGetWeather latitude longitude) w
  = (if ok response then json response
     else Returned (error_payload
                      match ed with
                      | reverted => "Failed to fetch weather"
                      | _ => "Failed to fetch weather: " ++ statusText response
                      end),
     w).
Proof.
  intros Hfetch.
  each_edition ed; cbn;
    unfold Direct.getWeather_execute, Reverted.getWeather_execute;
    unfold_monad; rewrite Hfetch; destruct (ok response); reflexivity.
Qed.

Lemma getWeather_on_response_witness :
  execute_of direct quiet_env (CallGetWeather 52 13) (world_of false None)
  = (Returned (error_payload "Failed to fetch weather: Bad Gateway"), world_of false None).
Proof.
  exact (getWeather_on_response direct quiet_env 52 13 _ (world_of false None) eq_refl).
Defined.

(** ** What no tool does *)

(** In every edition and for every tool call, whatever the collaborators
    answer: the chat table and the session are as they were, and among the
    calls the tool makes none saves or deletes a chat. *)
Theorem tools_never_write_chats
    (ed : Edition) (env : Env) (call : ToolCall) (w : World) :
  let after := (execute_of ed env call w).2 in
  chats after = chats w
  /\ session after = session w
  /\ exists calls, trace after = (trace w ++ calls)%list
                   /\ Forall (fun e => touches_chats e = false) calls.
Proof.
  pose proof (execute_preserves chats_untouched chats_untouched_refl
                chats_untouched_trans chats_untouched_record
                chats_untouched_reservations ed env call w) as (Hchats & _ & Hcalls).
  assert (Hsession : same_session w (execute_of ed env call w).2).
  { apply (execute_preserves same_session); unfold same_session;
      [reflexivity | intros w1 w2 w3; congruence | reflexivity | reflexivity]. }
  split; [exact Hchats | split; [exact Hsession | exact Hcalls]].
Qed.
